(** * SceneManager: texture table, material registry and shader-state calls

    A shallow embedding of [SceneManager.cpp].  The scene manager owns a
    fixed array of texture slots with a manually tracked count, a vector of
    materials, and a pointer to a shader manager through which it pushes
    uniforms.  Every method is a computation over the object's fields that
    may also issue calls to the image decoder and to OpenGL; those calls are
    recorded, in order, in a trace.  Accesses that C++ leaves undefined (a
    write past the end of the slot array, a call through a null pointer) end
    the computation in a [Fault]. *)

From Stdlib Require Import ZArith String List Bool Lia.
From Stdlib Require Import QArith.
From stdpp Require Import base list.
Import ListNotations.

Open Scope string_scope.
Open Scope list_scope.
Open Scope Z_scope.

(** ** Machine integers used by the class *)

(** [GLuint] and the [ID] field of a slot are 32-bit unsigned: the field's
    address is handed to [glDeleteTextures], which takes [const GLuint*]. *)
Definition to_uint32 (z : Z) : Z := z mod 2 ^ 32.

(** Conversion of a 32-bit unsigned value to [int], as in
    [textureID = m_textureIDs[index].ID]. *)
Definition to_int (u : Z) : Z := if u <? 2 ^ 31 then u else u - 2 ^ 32.

(** ** GLM, seen through the calls the class makes *)

Record vec2 (F : Type) := mk_vec2 { v2x : F; v2y : F }.
Record vec3 (F : Type) := mk_vec3 { vx : F; vy : F; vz : F }.
Record vec4 (F : Type) := mk_vec4 { cr : F; cg : F; cb : F; ca : F }.
Arguments mk_vec2 {F}.
Arguments mk_vec3 {F}.
Arguments mk_vec4 {F}.
Arguments v2x {F}.
Arguments v2y {F}.
Arguments vx {F}.
Arguments vy {F}.
Arguments vz {F}.
Arguments cr {F}.
Arguments cg {F}.
Arguments cb {F}.
Arguments ca {F}.

(** The scalar type [float], the matrix type and the GLM functions of
    [glm/gtx/transform.hpp] are an external library.  They are taken as an
    interface without any algebraic law, so that nothing proved below relies
    on exact arithmetic. *)
Class Glm (float : Type) := {
  mat4 : Type;
  lit_0 : float;                               (* 0.0f *)
  lit_1 : float;                               (* 1.0f *)
  glm_radians : float -> float;
  glm_scale : vec3 float -> mat4;
  glm_rotate : float -> vec3 float -> mat4;
  glm_translate : vec3 float -> mat4;
  mat4_mul : mat4 -> mat4 -> mat4              (* operator* *)
}.

(** ** OpenGL and stb_image, seen through the calls the class makes *)

Inductive GLenum :=
| GL_TEXTURE_2D
| GL_TEXTURE_WRAP_S
| GL_TEXTURE_WRAP_T
| GL_TEXTURE_MIN_FILTER
| GL_TEXTURE_MAG_FILTER
| GL_CLAMP_TO_EDGE
| GL_REPEAT
| GL_LINEAR
| GL_RGBA
| GL_RGB
| GL_UNSIGNED_BYTE.

(** What [stbi_load] hands back for a decodable file. *)
Record stbi_image := {
  width : Z;
  height : Z;
  colorChannels : Z;
  pixels : list Byte.byte
}.

Inductive call :=
| stbi_set_flip_vertically_on_load (flag : bool)
| stbi_load (filename : string)
| stbi_image_free (image : stbi_image)
| cout (text : string)
| glGenTextures (n : Z) (generated : Z)
| glBindTexture (target : GLenum) (texture : Z)
| glTexParameteri (target pname param : GLenum)
| glTexImage2D (target : GLenum) (level : Z) (internalformat : GLenum)
               (w h border : Z) (format type : GLenum) (data : stbi_image)
| glGenerateMipmap (target : GLenum)
| glActiveTexture (unit_index : Z)             (* GL_TEXTURE0 + unit_index *)
| glDeleteTextures (n : Z) (texture : Z).

(** Calls that reach the GPU driver. *)
Definition is_gl_call (c : call) : bool :=
  match c with
  | stbi_set_flip_vertically_on_load _ | stbi_load _ | stbi_image_free _
  | cout _ => false
  | _ => true
  end.

(** Calls that choose a wrap mode. *)
Definition is_wrap_call (c : call) : bool :=
  match c with
  | glTexParameteri _ GL_TEXTURE_WRAP_S _
  | glTexParameteri _ GL_TEXTURE_WRAP_T _ => true
  | _ => false
  end.

(** ** Data of the class *)

Record TEXTURE_INFO := mk_TEXTURE_INFO { ID : Z; tag : string }.

Definition set_ID (v : Z) (t : TEXTURE_INFO) : TEXTURE_INFO :=
  {| ID := v; tag := tag t |}.
Definition set_tag (v : string) (t : TEXTURE_INFO) : TEXTURE_INFO :=
  {| ID := ID t; tag := v |}.

Inductive fault :=
| OutOfBounds (index : Z)      (* array element outside the array *)
| NullDereference              (* call through a null m_pShaderManager *)
| LoopBudget.                  (* a loop outran its iteration bound *)

(** ** Computations

    A method runs on the object's state, records the external calls it
    makes, and either returns with a new state or stops at a fault. *)

Inductive outcome (S A : Type) :=
| Returned (a : A) (s : S)
| Fault (f : fault).
Arguments Returned {S A}.
Arguments Fault {S A}.

Definition M (S A : Type) : Type := S -> list call * outcome S A.

Definition ret {S A} (a : A) : M S A := fun s => ([], Returned a s).

Definition bind {S A B} (m : M S A) (k : A -> M S B) : M S B := fun s =>
  match m s with
  | (t, Returned a s') => let (t', r) := k a s' in (t ++ t', r)
  | (t, Fault f) => (t, Fault f)
  end.

Definition get {S} : M S S := fun s => ([], Returned s s).
Definition put {S} (s' : S) : M S unit := fun _ => ([], Returned tt s').
Definition emit {S} (c : call) : M S unit := fun s => ([c], Returned tt s).
Definition raise {S A} (f : fault) : M S A := fun _ => ([], Fault f).

Notation "x <- m ;; k" := (bind m (fun x => k))
  (at level 100, m at next level, right associativity).
Notation "m ;; k" := (bind m (fun _ => k))
  (at level 100, right associativity).

(** One request to [CreateGLTexture] together with what the decoder and
    [glGenTextures] answer for it. *)
Record load := {
  load_filename : string;
  load_tag : string;
  load_image : stbi_image;
  load_generated : Z
}.

(** The slot a load leaves behind once it is registered. *)
Definition slot_of_load (l : load) : TEXTURE_INFO :=
  {| ID := to_uint32 (load_generated l); tag := load_tag l |}.

Section Scene.

Context {float : Type} `{G : Glm float}.

Record OBJECT_MATERIAL := mk_OBJECT_MATERIAL {
  diffuseColor : vec3 float;
  specularColor : vec3 float;
  shininess : float;
  mtag : string                                (* the field named tag *)
}.

(** The typed setters of the shader manager. *)
Inductive uniform :=
| Mat4Value (m : mat4)
| IntValue (i : Z)
| BoolValue (b : bool)
| FloatValue (f : float)
| Vec2Value (v : vec2 float)
| Vec3Value (v : vec3 float)
| Vec4Value (v : vec4 float)
| Sampler2DValue (i : Z).

(** A shader manager is known only through the setter calls made on it:
    it is the history of those calls, most recent first. *)
Definition ShaderManager : Type := list (string * uniform).

(** The value a uniform currently holds: the last one written to it. *)
Fixpoint uniform_value (sm : ShaderManager) (name : string) : option uniform :=
  match sm with
  | [] => None
  | (n, v) :: older => if (n =? name)%string then Some v else uniform_value older name
  end.

Record SceneManager := mk_SceneManager {
  m_pShaderManager : option ShaderManager;     (* None is NULL *)
  m_textureIDs : list TEXTURE_INFO;
  m_loadedTextures : Z;
  m_objectMaterials : list OBJECT_MATERIAL
}.

Definition with_shader (sm : option ShaderManager) (s : SceneManager) :=
  {| m_pShaderManager := sm; m_textureIDs := m_textureIDs s;
     m_loadedTextures := m_loadedTextures s;
     m_objectMaterials := m_objectMaterials s |}.
Definition with_textureIDs (a : list TEXTURE_INFO) (s : SceneManager) :=
  {| m_pShaderManager := m_pShaderManager s; m_textureIDs := a;
     m_loadedTextures := m_loadedTextures s;
     m_objectMaterials := m_objectMaterials s |}.
Definition with_loadedTextures (n : Z) (s : SceneManager) :=
  {| m_pShaderManager := m_pShaderManager s; m_textureIDs := m_textureIDs s;
     m_loadedTextures := n;
     m_objectMaterials := m_objectMaterials s |}.

Notation "a ** b" := (mat4_mul a b) (at level 40, left associativity).

(** ** The slot array *)

(** Modelled from the spec: the declaration of [m_textureIDs] is in
    SceneManager.h, which is not among the sources.  The spec gives the table
    exactly 16 slots; the constructor below initialises elements 0 to 15. *)
Definition MAX_TEXTURES : Z := 16.

(** [m_textureIDs[index]], read.  An index outside the array is a fault. *)
Definition textureIDs_at (index : Z) : M SceneManager TEXTURE_INFO :=
  s <- get;;
  if 0 <=? index then
    match m_textureIDs s !! Z.to_nat index with
    | Some t => ret t
    | None => raise (OutOfBounds index)
    end
  else raise (OutOfBounds index).

(** [m_textureIDs[index].field = v], written as an update of the element. *)
Definition textureIDs_update (index : Z) (f : TEXTURE_INFO -> TEXTURE_INFO)
  : M SceneManager unit :=
  t <- textureIDs_at index;;
  s <- get;;
  put (with_textureIDs (<[Z.to_nat index := f t]> (m_textureIDs s)) s).

(** [m_objectMaterials[index]], read. *)
Definition objectMaterials_at (index : Z) : M SceneManager OBJECT_MATERIAL :=
  s <- get;;
  if 0 <=? index then
    match m_objectMaterials s !! Z.to_nat index with
    | Some m => ret m
    | None => raise (OutOfBounds index)
    end
  else raise (OutOfBounds index).

(** ** Calls through [m_pShaderManager] *)

Definition g_ModelName : string := "model".
Definition g_ColorValueName : string := "objectColor".
Definition g_TextureValueName : string := "objectTexture".
Definition g_UseTextureName : string := "bUseTexture".
Definition g_UseLightingName : string := "bUseLighting".

(** [m_pShaderManager->setter(name, v)], without any null check. *)
Definition shader_call (name : string) (v : uniform) : M SceneManager unit :=
  s <- get;;
  match m_pShaderManager s with
  | None => raise NullDereference
  | Some sm => put (with_shader (Some ((name, v) :: sm)) s)
  end.

Definition setMat4Value (name : string) (m : mat4) := shader_call name (Mat4Value m).
Definition setIntValue (name : string) (i : Z) := shader_call name (IntValue i).
Definition setFloatValue (name : string) (f : float) := shader_call name (FloatValue f).
Definition setVec2Value (name : string) (v : vec2 float) := shader_call name (Vec2Value v).
Definition setVec3Value (name : string) (v : vec3 float) := shader_call name (Vec3Value v).
Definition setVec4Value (name : string) (v : vec4 float) := shader_call name (Vec4Value v).
Definition setSampler2DValue (name : string) (i : Z) := shader_call name (Sampler2DValue i).

(** [NULL != m_pShaderManager] *)
Definition shader_not_null : M SceneManager bool :=
  s <- get;;
  ret (match m_pShaderManager s with Some _ => true | None => false end).

(** ** SceneManager()

    The constructor stores the pointer, writes the tag "/0" and the ID -1
    (4294967295 once stored in the unsigned field) to each of the 16 slots,
    and zeroes the count.  The mesh object it allocates plays no part in the
    methods below and is left out. *)

Definition SceneManager_new (pShaderManager : option ShaderManager)
  : SceneManager :=
  {| m_pShaderManager := pShaderManager;
     m_textureIDs :=
       replicate (Z.to_nat MAX_TEXTURES) {| ID := to_uint32 (-1); tag := "/0" |};
     m_loadedTextures := 0;
     m_objectMaterials := [] |}.

(** ** CreateGLTexture()

    [image] is what [stbi_load] answers for [filename] ([None] for a null
    pointer) and [generated] the name [glGenTextures] writes to
    [textureID]. *)
Definition CreateGLTexture (filename : string) (tag' : string)
    (image : option stbi_image) (generated : Z) : M SceneManager bool :=
  emit (stbi_set_flip_vertically_on_load true);;
  emit (stbi_load filename);;
  match image with
  | None =>
    emit (cout (String.append "Failed to load texture:" filename));;
    ret false
  | Some img =>
    let textureID := to_uint32 generated in
    emit (glGenTextures 1 textureID);;
    emit (glBindTexture GL_TEXTURE_2D textureID);;
    (if (tag' =? "panda")%string || (tag' =? "thinkpad")%string then
       emit (glTexParameteri GL_TEXTURE_2D GL_TEXTURE_WRAP_S GL_CLAMP_TO_EDGE);;
       emit (glTexParameteri GL_TEXTURE_2D GL_TEXTURE_WRAP_T GL_CLAMP_TO_EDGE)
     else
       emit (glTexParameteri GL_TEXTURE_2D GL_TEXTURE_WRAP_S GL_REPEAT);;
       emit (glTexParameteri GL_TEXTURE_2D GL_TEXTURE_WRAP_T GL_REPEAT));;
    emit (glTexParameteri GL_TEXTURE_2D GL_TEXTURE_MIN_FILTER GL_LINEAR);;
    emit (glTexParameteri GL_TEXTURE_2D GL_TEXTURE_MAG_FILTER GL_LINEAR);;
    let format := if colorChannels img =? 4 then GL_RGBA else GL_RGB in
    emit (glTexImage2D GL_TEXTURE_2D 0 format (width img) (height img) 0
                       format GL_UNSIGNED_BYTE img);;
    emit (glGenerateMipmap GL_TEXTURE_2D);;
    emit (stbi_image_free img);;
    emit (glBindTexture GL_TEXTURE_2D 0);;
    s <- get;;
    textureIDs_update (m_loadedTextures s) (set_ID textureID);;
    textureIDs_update (m_loadedTextures s) (set_tag tag');;
    s' <- get;;
    put (with_loadedTextures (m_loadedTextures s' + 1) s');;
    ret true
  end.

(** ** BindGLTextures() *)

Fixpoint BindGLTextures_loop (budget : nat) (i : Z) : M SceneManager unit :=
  s <- get;;
  if i <? m_loadedTextures s then
    match budget with
    | O => raise LoopBudget
    | S budget' =>
      emit (glActiveTexture i);;
      t <- textureIDs_at i;;
      emit (glBindTexture GL_TEXTURE_2D (ID t));;
      BindGLTextures_loop budget' (i + 1)
    end
  else ret tt.

Definition BindGLTextures : M SceneManager unit :=
  s <- get;;
  BindGLTextures_loop (Z.to_nat (m_loadedTextures s)) 0.

(** ** DestroyGLTextures() *)

Fixpoint DestroyGLTextures_loop (budget : nat) (i : Z) : M SceneManager unit :=
  s <- get;;
  if i <? m_loadedTextures s then
    match budget with
    | O => raise LoopBudget
    | S budget' =>
      t <- textureIDs_at i;;
      (if negb (ID t =? 0) then
         emit (glDeleteTextures 1 (ID t));;
         textureIDs_update i (set_ID 0)
       else ret tt);;
      DestroyGLTextures_loop budget' (i + 1)
    end
  else ret tt.

Definition DestroyGLTextures : M SceneManager unit :=
  s <- get;;
  DestroyGLTextures_loop (Z.to_nat (m_loadedTextures s)) 0;;
  s' <- get;;
  put (with_loadedTextures 0 s').

(** ** FindTextureID()

    The loop runs its body at most [m_loadedTextures] times: every pass
    either advances [index] or sets [bFound], which ends the loop. *)
Fixpoint FindTextureID_loop (budget : nat) (tag' : string)
    (textureID index : Z) (bFound : bool) : M SceneManager Z :=
  s <- get;;
  if (index <? m_loadedTextures s) && Bool.eqb bFound false then
    match budget with
    | O => raise LoopBudget
    | S budget' =>
      t <- textureIDs_at index;;
      if (tag t =? tag')%string then
        FindTextureID_loop budget' tag' (to_int (ID t)) index true
      else
        FindTextureID_loop budget' tag' textureID (index + 1) bFound
    end
  else ret textureID.

Definition FindTextureID (tag' : string) : M SceneManager Z :=
  s <- get;;
  FindTextureID_loop (Z.to_nat (m_loadedTextures s)) tag' (-1) 0 false.

(** ** FindTextureSlot() *)

Fixpoint FindTextureSlot_loop (budget : nat) (tag' : string)
    (textureSlot index : Z) (bFound : bool) : M SceneManager Z :=
  s <- get;;
  if (index <? m_loadedTextures s) && Bool.eqb bFound false then
    match budget with
    | O => raise LoopBudget
    | S budget' =>
      t <- textureIDs_at index;;
      if (tag t =? tag')%string then
        FindTextureSlot_loop budget' tag' index index true
      else
        FindTextureSlot_loop budget' tag' textureSlot (index + 1) bFound
    end
  else ret textureSlot.

Definition FindTextureSlot (tag' : string) : M SceneManager Z :=
  s <- get;;
  FindTextureSlot_loop (Z.to_nat (m_loadedTextures s)) tag' (-1) 0 false.

(** ** FindMaterial()

    [material] is the caller's object, passed by reference: the method
    returns it with the three copied fields overwritten on a match. *)
Fixpoint FindMaterial_loop (budget : nat) (tag' : string)
    (material : OBJECT_MATERIAL) (index : Z) (bFound : bool)
  : M SceneManager (bool * OBJECT_MATERIAL) :=
  s <- get;;
  if (index <? Z.of_nat (length (m_objectMaterials s))) && Bool.eqb bFound false
  then
    match budget with
    | O => raise LoopBudget
    | S budget' =>
      m <- objectMaterials_at index;;
      if (mtag m =? tag')%string then
        FindMaterial_loop budget' tag'
          {| diffuseColor := diffuseColor m;
             specularColor := specularColor m;
             shininess := shininess m;
             mtag := mtag material |} index true
      else
        FindMaterial_loop budget' tag' material (index + 1) bFound
    end
  else ret (bFound, material).

Definition FindMaterial (tag' : string) (material : OBJECT_MATERIAL)
  : M SceneManager (bool * OBJECT_MATERIAL) :=
  s <- get;;
  if Z.of_nat (length (m_objectMaterials s)) =? 0 then
    ret (false, material)
  else
    r <- FindMaterial_loop (length (m_objectMaterials s)) tag' material 0 false;;
    ret (true, snd r).

(** ** SetTransformations() *)

Definition SetTransformations (scaleXYZ : vec3 float)
    (XrotationDegrees YrotationDegrees ZrotationDegrees : float)
    (positionXYZ : vec3 float) : M SceneManager unit :=
  let scale := glm_scale scaleXYZ in
  let rotationX :=
    glm_rotate (glm_radians XrotationDegrees) (mk_vec3 lit_1 lit_0 lit_0) in
  let rotationY :=
    glm_rotate (glm_radians YrotationDegrees) (mk_vec3 lit_0 lit_1 lit_0) in
  let rotationZ :=
    glm_rotate (glm_radians ZrotationDegrees) (mk_vec3 lit_0 lit_0 lit_1) in
  let translation := glm_translate positionXYZ in
  let modelView := translation ** rotationZ ** rotationY ** rotationX ** scale in
  ok <- shader_not_null;;
  if ok then setMat4Value g_ModelName modelView else ret tt.

(** ** SetShaderColor() *)

Definition SetShaderColor
    (redColorValue greenColorValue blueColorValue alphaValue : float) : M SceneManager unit :=
  let currentColor :=
    {| cr := redColorValue; cg := greenColorValue;
       cb := blueColorValue; ca := alphaValue |} in
  ok <- shader_not_null;;
  if ok then
    setIntValue g_UseTextureName (Z.b2z false);;
    setVec4Value g_ColorValueName currentColor
  else ret tt.

(** ** SetShaderMaterial()

    [indeterminate] is the content of the local [material] before
    [FindMaterial] is called on it: the source declares it without an
    initialiser. *)
Definition SetShaderMaterial (materialTag : string)
    (indeterminate : OBJECT_MATERIAL) : M SceneManager unit :=
  s <- get;;
  if 0 <? Z.of_nat (length (m_objectMaterials s)) then
    r <- FindMaterial materialTag indeterminate;;
    let bReturn := fst r in
    let material := snd r in
    if Bool.eqb bReturn true then
      setVec3Value "material.diffuseColor" (diffuseColor material);;
      setVec3Value "material.specularColor" (specularColor material);;
      setFloatValue "material.shininess" (shininess material)
    else ret tt
  else ret tt.

(** ** SetShaderTexture() *)

Definition SetShaderTexture (textureTag : string) : M SceneManager unit :=
  ok <- shader_not_null;;
  if ok then
    setIntValue g_UseTextureName (Z.b2z true);;
    textureID <- FindTextureSlot textureTag;;
    setSampler2DValue g_TextureValueName textureID
  else ret tt.

(** ** SetTextureUVScale() *)

Definition SetTextureUVScale (u v : float) : M SceneManager unit :=
  ok <- shader_not_null;;
  if ok then setVec2Value "UVscale" {| v2x := u; v2y := v |} else ret tt.

(** ** Several loads in a row, as [LoadSceneTextures] issues them *)

Fixpoint LoadAll (loads : list load) : M SceneManager unit :=
  match loads with
  | [] => ret tt
  | l :: rest =>
    CreateGLTexture (load_filename l) (load_tag l) (Some (load_image l))
                    (load_generated l);;
    LoadAll rest
  end.

(** ** Vocabulary of the statements *)

(** The slot array is at least as long as the count says. *)
Definition table_ok (s : SceneManager) : Prop :=
  m_loadedTextures s <= Z.of_nat (length (m_textureIDs s)).

(** The live slots: the first [m_loadedTextures] elements. *)
Definition registered (s : SceneManager) : list TEXTURE_INFO :=
  take (Z.to_nat (m_loadedTextures s)) (m_textureIDs s).

(** First slot of [slots] carrying [tag'], numbering from [index]. *)
Fixpoint first_slot (tag' : string) (slots : list TEXTURE_INFO) (index : Z)
  : option (Z * TEXTURE_INFO) :=
  match slots with
  | [] => None
  | t :: rest =>
    if (tag t =? tag')%string then Some (index, t)
    else first_slot tag' rest (index + 1)
  end.

(** First material of [materials] carrying [tag']. *)
Fixpoint first_material (tag' : string) (materials : list OBJECT_MATERIAL)
  : option OBJECT_MATERIAL :=
  match materials with
  | [] => None
  | m :: rest =>
    if (mtag m =? tag')%string then Some m else first_material tag' rest
  end.

(** The three fields [FindMaterial] copies out of a match. *)
Definition copy_material (m material : OBJECT_MATERIAL) : OBJECT_MATERIAL :=
  {| diffuseColor := diffuseColor m;
     specularColor := specularColor m;
     shininess := shininess m;
     mtag := mtag material |}.

(** The value a uniform holds in the shader manager the object points to. *)
Definition shader_uniform (s : SceneManager) (name : string) : option uniform :=
  match m_pShaderManager s with
  | Some sm => uniform_value sm name
  | None => None
  end.

(** The calls of a load whose image decoded, up to the registration. *)
Definition upload_calls (filename tag' : string) (img : stbi_image)
    (generated : Z) (wrap : GLenum) : list call :=
  let format := if colorChannels img =? 4 then GL_RGBA else GL_RGB in
  [ stbi_set_flip_vertically_on_load true;
    stbi_load filename;
    glGenTextures 1 (to_uint32 generated);
    glBindTexture GL_TEXTURE_2D (to_uint32 generated);
    glTexParameteri GL_TEXTURE_2D GL_TEXTURE_WRAP_S wrap;
    glTexParameteri GL_TEXTURE_2D GL_TEXTURE_WRAP_T wrap;
    glTexParameteri GL_TEXTURE_2D GL_TEXTURE_MIN_FILTER GL_LINEAR;
    glTexParameteri GL_TEXTURE_2D GL_TEXTURE_MAG_FILTER GL_LINEAR;
    glTexImage2D GL_TEXTURE_2D 0 format (width img) (height img) 0
                 format GL_UNSIGNED_BYTE img;
    glGenerateMipmap GL_TEXTURE_2D;
    stbi_image_free img;
    glBindTexture GL_TEXTURE_2D 0 ].

(** The spec's [ComposeModelMatrix], following its words: Translate x
    RotateZ x RotateY x RotateX x Scale, rotations given in degrees. *)
Definition Translate (position : vec3 float) : mat4 := glm_translate position.
Definition Scale (scale : vec3 float) : mat4 := glm_scale scale.
Definition RotateX (degrees : float) : mat4 :=
  glm_rotate (glm_radians degrees) (mk_vec3 lit_1 lit_0 lit_0).
Definition RotateY (degrees : float) : mat4 :=
  glm_rotate (glm_radians degrees) (mk_vec3 lit_0 lit_1 lit_0).
Definition RotateZ (degrees : float) : mat4 :=
  glm_rotate (glm_radians degrees) (mk_vec3 lit_0 lit_0 lit_1).

Definition ComposeModelMatrix (scale rotationDegrees position : vec3 float)
  : mat4 :=
  Translate position ** RotateZ (vz rotationDegrees)
    ** RotateY (vy rotationDegrees) ** RotateX (vx rotationDegrees)
    ** Scale scale.

End Scene.

(** * The rest of the class: set-up, tear-down and their vocabulary *)

(** A decimal literal of type [float] in the source, such as [0.6f]: the
    written decimal is kept and its conversion to [float] is the
    compiler's.  A leading minus sign is taken into the literal. *)
Class FloatLiteral (float : Type) := literal : Q -> float.

(** One call of [CreateGLTexture] together with the decoder's answer
    ([None] for a file that does not decode) and the name [glGenTextures]
    would hand out. *)
Record attempt := {
  attempt_filename : string;
  attempt_tag : string;
  attempt_image : option stbi_image;
  attempt_generated : Z
}.

(** The slots a run of attempts registers: one per image that decoded, in
    call order. *)
Fixpoint decoded (attempts : list attempt) : list TEXTURE_INFO :=
  match attempts with
  | [] => []
  | a :: rest =>
    match attempt_image a with
    | Some _ =>
      {| ID := to_uint32 (attempt_generated a); tag := attempt_tag a |}
        :: decoded rest
    | None => decoded rest
    end
  end.

(** The calls that bind the slots [slots] to the units [unit_index],
    [unit_index + 1], ... *)
Fixpoint bind_calls (unit_index : Z) (slots : list TEXTURE_INFO) : list call :=
  match slots with
  | [] => []
  | t :: rest =>
    glActiveTexture unit_index :: glBindTexture GL_TEXTURE_2D (ID t)
      :: bind_calls (unit_index + 1) rest
  end.

(** The calls that delete the textures of [slots] whose name is not 0. *)
Fixpoint delete_calls (slots : list TEXTURE_INFO) : list call :=
  match slots with
  | [] => []
  | t :: rest =>
    if ID t =? 0 then delete_calls rest
    else glDeleteTextures 1 (ID t) :: delete_calls rest
  end.

Section SceneSetup.

Context {float : Type} `{G : Glm float} `{L : FloatLiteral float}.

Definition with_objectMaterials (materials : list (@OBJECT_MATERIAL float))
    (s : SceneManager) : SceneManager :=
  {| m_pShaderManager := m_pShaderManager s; m_textureIDs := m_textureIDs s;
     m_loadedTextures := m_loadedTextures s;
     m_objectMaterials := materials |}.

(** [m_objectMaterials.push_back(material)] *)
Definition push_back (material : @OBJECT_MATERIAL float) : M SceneManager unit :=
  s <- get;;
  put (with_objectMaterials (m_objectMaterials s ++ [material]) s).

(** [glm::vec3(a, b, c)] on three literals *)
Definition vec3_literal (a b c : Q) : vec3 float :=
  mk_vec3 (literal a) (literal b) (literal c).

Definition setBoolValue (name : string) (b : bool) : M SceneManager unit :=
  shader_call name (BoolValue b).

(** ** ~SceneManager()

    The destructor clears the pointer first and releases the textures
    last.  The mesh object it deletes is outside the modelled state. *)
Definition SceneManager_delete : M SceneManager unit :=
  s <- get;;
  put (with_shader None s);;
  DestroyGLTextures.

(** ** DefineObjectMaterials() *)

Definition DefineObjectMaterials : M SceneManager unit :=
  let plasticMaterial :=
    {| diffuseColor := vec3_literal 0.6 0.6 0.6;
       specularColor := vec3_literal 0.8 0.8 0.8;
       shininess := literal 300.0;
       mtag := "plastic" |} in
  push_back plasticMaterial;;
  let hardplasticMaterial :=
    {| diffuseColor := vec3_literal 0.1 0.1 0.1;
       specularColor := vec3_literal 0.5 0.5 0.5;
       shininess := literal 150.0;
       mtag := "hardplastic" |} in
  push_back hardplasticMaterial;;
  let woodMaterial :=
    {| diffuseColor := vec3_literal 0.55 0.27 0.07;
       specularColor := vec3_literal 0.1 0.05 0.02;
       shininess := literal 20.0;
       mtag := "wood" |} in
  push_back woodMaterial;;
  let siliconeMaterial :=
    {| diffuseColor := vec3_literal 0.9 0.9 0.9;
       specularColor := vec3_literal 0.2 0.2 0.2;
       shininess := literal 2.0;
       mtag := "silicone" |} in
  push_back siliconeMaterial;;
  let rugMaterial :=
    {| diffuseColor := vec3_literal 0.65 0.45 0.3;
       specularColor := vec3_literal 0.05 0.05 0.05;
       shininess := literal 1.0;
       mtag := "rug" |} in
  push_back rugMaterial;;
  let wallMaterial :=
    {| diffuseColor := vec3_literal 0.55 0.55 0.55;
       specularColor := vec3_literal 0.2 0.2 0.2;
       shininess := literal 5.0;
       mtag := "wall" |} in
  push_back wallMaterial;;
  let metalMaterial :=
    {| diffuseColor := vec3_literal 0.7 0.7 0.7;
       specularColor := vec3_literal 1.0 1.0 1.0;
       shininess := literal 300.0;
       mtag := "metal" |} in
  push_back metalMaterial;;
  let windowMaterial :=
    {| diffuseColor := vec3_literal 0.1 0.1 0.1;
       specularColor := vec3_literal 0.9 0.9 0.9;
       shininess := literal 500.0;
       mtag := "window" |} in
  push_back windowMaterial.

(** ** SetupSceneLights() *)

Definition SetupSceneLights : M SceneManager unit :=
  setBoolValue g_UseLightingName true;;
  setVec3Value "pointLights[0].position" (vec3_literal (-110.0) 50.0 20.0);;
  setVec3Value "pointLights[0].ambient" (vec3_literal 0.7 0.7 0.7);;
  setVec3Value "pointLights[0].diffuse" (vec3_literal 0.4 0.4 0.4);;
  setVec3Value "pointLights[0].specular" (vec3_literal 0.5 0.5 0.5);;
  setBoolValue "pointLights[0].bActive" true;;
  setFloatValue "pointLights[0].constant" (literal 1.0);;
  setFloatValue "pointLights[0].linear" (literal 0.013);;
  setFloatValue "pointLights[0].quadratic" (literal 0.002);;
  setVec3Value "pointLights[1].position" (vec3_literal 30.0 30.0 0.0);;
  setVec3Value "pointLights[1].ambient" (vec3_literal 0.105 0.084 0.07);;
  setVec3Value "pointLights[1].diffuse" (vec3_literal 0.175 0.14 0.105);;
  setVec3Value "pointLights[1].specular" (vec3_literal 0.105 0.07 0.056);;
  setBoolValue "pointLights[1].bActive" true;;
  setFloatValue "pointLights[1].constant" (literal 0.5);;
  setFloatValue "pointLights[1].linear" (literal 0.015);;
  setFloatValue "pointLights[1].quadratic" (literal 0.002);;
  setVec3Value "pointLights[2].position" (vec3_literal 0.0 50.0 0.0);;
  setVec3Value "pointLights[2].ambient" (vec3_literal 0.105 0.084 0.07);;
  setVec3Value "pointLights[2].diffuse" (vec3_literal 0.175 0.14 0.105);;
  setVec3Value "pointLights[2].specular" (vec3_literal 0.105 0.07 0.056);;
  setBoolValue "pointLights[2].bActive" true;;
  setFloatValue "pointLights[2].constant" (literal 0.5);;
  setFloatValue "pointLights[2].linear" (literal 0.015);;
  setFloatValue "pointLights[2].quadratic" (literal 0.002).

(** ** LoadSceneTextures()

    [answers n] is what the decoder and [glGenTextures] answer to the
    [n]-th call of [CreateGLTexture], counting from 0. *)

Definition LoadSceneTextures (answers : nat -> option stbi_image * Z)
  : M SceneManager unit :=
  let load (call : nat) (filename tag' : string) :=
    CreateGLTexture filename tag' (fst (answers call)) (snd (answers call)) in
  bReturn <- load 0%nat "../5-2_Assignment/textures/keyboard.png" "keyboard";;
  bReturn <- load 1%nat "../5-2_Assignment/textures/thinkpad.png" "thinkpad";;
  bReturn <- load 2%nat "../5-2_Assignment/textures/circular-brushed-gold-texture.jpg" "hinge";;
  bReturn <- load 3%nat "../5-2_Assignment/textures/wood1.jpg" "wood1";;
  bReturn <- load 4%nat "../5-2_Assignment/textures/wood2.jpg" "wood2";;
  bReturn <- load 5%nat "../5-2_Assignment/textures/couch.jpg" "couch";;
  bReturn <- load 6%nat "../5-2_Assignment/textures/zipper.png" "zipper";;
  bReturn <- load 7%nat "../5-2_Assignment/textures/panda.png" "panda";;
  bReturn <- load 8%nat "../5-2_Assignment/textures/rug.jpg" "rug";;
  bReturn <- load 9%nat "../5-2_Assignment/textures/screen.jpg" "screen";;
  bReturn <- load 10%nat "../5-2_Assignment/textures/laptoptexture.jpg" "pctexture";;
  bReturn <- load 11%nat "../5-2_Assignment/textures/i7logo.jpg" "i7";;
  bReturn <- load 12%nat "../5-2_Assignment/textures/suitcase.jpg" "suitcase";;
  bReturn <- load 13%nat "../5-2_Assignment/textures/window.png" "window";;
  bReturn <- load 14%nat "../5-2_Assignment/textures/rusticwood.jpg" "rusticwood";;
  bReturn <- load 15%nat "../5-2_Assignment/textures/whitewood.jpg" "whitewood";;
  BindGLTextures.

(** The sixteen calls of [LoadSceneTextures] as a list of attempts. *)
Definition scene_attempts (answers : nat -> option stbi_image * Z)
  : list attempt :=
  imap (fun n (ft : string * string) =>
          {| attempt_filename := fst ft; attempt_tag := snd ft;
             attempt_image := fst (answers n);
             attempt_generated := snd (answers n) |})
    [ ("../5-2_Assignment/textures/keyboard.png", "keyboard");
      ("../5-2_Assignment/textures/thinkpad.png", "thinkpad");
      ("../5-2_Assignment/textures/circular-brushed-gold-texture.jpg", "hinge");
      ("../5-2_Assignment/textures/wood1.jpg", "wood1");
      ("../5-2_Assignment/textures/wood2.jpg", "wood2");
      ("../5-2_Assignment/textures/couch.jpg", "couch");
      ("../5-2_Assignment/textures/zipper.png", "zipper");
      ("../5-2_Assignment/textures/panda.png", "panda");
      ("../5-2_Assignment/textures/rug.jpg", "rug");
      ("../5-2_Assignment/textures/screen.jpg", "screen");
      ("../5-2_Assignment/textures/laptoptexture.jpg", "pctexture");
      ("../5-2_Assignment/textures/i7logo.jpg", "i7");
      ("../5-2_Assignment/textures/suitcase.jpg", "suitcase");
      ("../5-2_Assignment/textures/window.png", "window");
      ("../5-2_Assignment/textures/rusticwood.jpg", "rusticwood");
      ("../5-2_Assignment/textures/whitewood.jpg", "whitewood") ].

(** ** A run of loads, some of which may fail to decode *)

Fixpoint LoadAttempts (attempts : list attempt) : M SceneManager unit :=
  match attempts with
  | [] => ret tt
  | a :: rest =>
    bReturn <- CreateGLTexture (attempt_filename a) (attempt_tag a)
                               (attempt_image a) (attempt_generated a);;
    LoadAttempts rest
  end.

(** ** Vocabulary *)

(** The slot array has its 16 elements and the count lies within it. *)
Definition table_inv (s : SceneManager) : Prop :=
  Z.of_nat (length (m_textureIDs s)) = MAX_TEXTURES
  /\ 0 <= m_loadedTextures s <= MAX_TEXTURES.

(** The names a uniform of the material block can have. *)
Definition material_uniforms : list string :=
  [ "material.diffuseColor"; "material.specularColor"; "material.shininess" ].

End SceneSetup.

(** ** A term model of GLM

    Scalars and matrices as the expressions that build them.  It serves to
    run the methods on concrete inputs; two matrices are equal in it only
    when they were built by the same calls in the same order. *)

Inductive sym_float :=
| FLit (z : Z)
| FRadians (degrees : sym_float).

Inductive sym_mat4 :=
| MScale (v : vec3 sym_float)
| MRotate (angle : sym_float) (axis : vec3 sym_float)
| MTranslate (v : vec3 sym_float)
| MMul (a b : sym_mat4).

#[export] Instance SymGlm : Glm sym_float := {|
  mat4 := sym_mat4;
  lit_0 := FLit 0;
  lit_1 := FLit 1;
  glm_radians := FRadians;
  glm_scale := MScale;
  glm_rotate := MRotate;
  glm_translate := MTranslate;
  mat4_mul := MMul
|}.

(** Literals in the term model: the decimal in thousandths. *)
#[export] Instance SymLiteral : FloatLiteral sym_float :=
  fun q => FLit (Qnum q * 1000 / Z.pos (Qden q)).

Module Sample.

Definition image : stbi_image :=
  {| width := 2; height := 2; colorChannels := 4; pixels := [] |}.

Definition extra_image : stbi_image :=
  {| width := 4; height := 4; colorChannels := 3; pixels := [] |}.

Definition plastic : @OBJECT_MATERIAL sym_float :=
  {| diffuseColor := mk_vec3 (FLit 6) (FLit 6) (FLit 6);
     specularColor := mk_vec3 (FLit 8) (FLit 8) (FLit 8);
     shininess := FLit 300;
     mtag := "plastic" |}.

Definition stale : @OBJECT_MATERIAL sym_float :=
  {| diffuseColor := mk_vec3 (FLit 41) (FLit 42) (FLit 43);
     specularColor := mk_vec3 (FLit 44) (FLit 45) (FLit 46);
     shininess := FLit 47;
     mtag := "" |}.

(** The sixteen tags of [LoadSceneTextures], in source order. *)
Definition scene_tags : list string :=
  ["keyboard"; "thinkpad"; "hinge"; "wood1"; "wood2"; "couch"; "zipper";
   "panda"; "rug"; "screen"; "pctexture"; "i7"; "suitcase"; "window";
   "rusticwood"; "whitewood"].

(** One load per tag, with texture names 1, 2, 3, ... *)
Definition scene_loads : list load :=
  imap (fun i t =>
          {| load_filename := String.append t ".png"; load_tag := t;
             load_image := image; load_generated := Z.of_nat (S i) |})
       scene_tags.

(** A table with all sixteen slots registered. *)
Definition full_table : @SceneManager sym_float SymGlm :=
  {| m_pShaderManager := Some [];
     m_textureIDs :=
       imap (fun i t => {| ID := Z.of_nat (S i); tag := t |}) scene_tags;
     m_loadedTextures := 16;
     m_objectMaterials := [] |}.

(** A table with two registered slots. *)
Definition two_loads : list load :=
  [ {| load_filename := "wood1.jpg"; load_tag := "wood1";
       load_image := image; load_generated := 1 |};
    {| load_filename := "wood2.jpg"; load_tag := "wood2";
       load_image := image; load_generated := 2 |} ].

Definition two_textures : @SceneManager sym_float SymGlm :=
  {| m_pShaderManager := Some [];
     m_textureIDs :=
       [ {| ID := 1; tag := "wood1" |}; {| ID := 2; tag := "wood2" |} ]
       ++ replicate 14 {| ID := to_uint32 (-1); tag := "/0" |};
     m_loadedTextures := 2;
     m_objectMaterials := [plastic] |}.

(** A run of three loads whose second image does not decode. *)
Definition couch_attempt : attempt :=
  {| attempt_filename := "couch.jpg"; attempt_tag := "couch";
     attempt_image := Some image; attempt_generated := 2 |}.

Definition three_attempts : list attempt :=
  [ {| attempt_filename := "wood1.jpg"; attempt_tag := "wood1";
       attempt_image := Some image; attempt_generated := 1 |};
    {| attempt_filename := "missing.jpg"; attempt_tag := "wood2";
       attempt_image := None; attempt_generated := 2 |};
    couch_attempt ].

(** A second material tagged "plastic", registered after [plastic]. *)
Definition plastic_again : @OBJECT_MATERIAL sym_float :=
  {| diffuseColor := mk_vec3 (FLit 1) (FLit 2) (FLit 3);
     specularColor := mk_vec3 (FLit 4) (FLit 5) (FLit 6);
     shininess := FLit 7;
     mtag := "plastic" |}.

Definition two_plastics : @SceneManager sym_float SymGlm :=
  {| m_pShaderManager := Some [];
     m_textureIDs := replicate 16 {| ID := to_uint32 (-1); tag := "/0" |};
     m_loadedTextures := 0;
     m_objectMaterials := [plastic; plastic_again] |}.

(** The two-texture table seen through a null shader pointer. *)
Definition two_textures_no_shader : @SceneManager sym_float SymGlm :=
  with_shader None two_textures.

End Sample.

(** * Properties *)

(** ** Sequencing *)

Lemma bind_Returned {S A B} (m : M S A) (k : A -> M S B) s t a s' :
  m s = (t, Returned a s') ->
  bind m k s = (t ++ fst (k a s'), snd (k a s')).
Proof. intros Hm. unfold bind. rewrite Hm. destruct (k a s'). reflexivity. Qed.

Lemma bind_Returned_nil {S A B} (m : M S A) (k : A -> M S B) s a s' :
  m s = ([], Returned a s') -> bind m k s = k a s'.
Proof. intros Hm. unfold bind. rewrite Hm. destruct (k a s'). reflexivity. Qed.

Lemma bind_Fault {S A B} (m : M S A) (k : A -> M S B) s t f :
  m s = (t, Fault f) -> bind m k s = (t, Fault f).
Proof. intros Hm. unfold bind. rewrite Hm. reflexivity. Qed.

Section SceneFacts.

Context {float : Type} `{G : Glm float}.

Implicit Types (s : SceneManager) (sm : ShaderManager).

(** Unfolds the plumbing of a computation so that it runs by [simpl]. *)
Ltac run :=
  unfold bind, get, put, emit, ret, raise; simpl.

(** ** Array accesses *)

Lemma textureIDs_at_in s index t :
  0 <= index ->
  m_textureIDs s !! Z.to_nat index = Some t ->
  textureIDs_at index s = ([], Returned t s).
Proof.
  intros Hpos Hslot. unfold textureIDs_at. run.
  destruct (Z.leb_spec 0 index); [|lia]. rewrite Hslot. reflexivity.
Qed.

Lemma textureIDs_at_out s index :
  index < 0 \/ Z.of_nat (length (m_textureIDs s)) <= index ->
  textureIDs_at index s = ([], Fault (OutOfBounds index)).
Proof.
  intros Hout. unfold textureIDs_at. run.
  destruct (Z.leb_spec 0 index); [|reflexivity].
  rewrite (lookup_ge_None_2 (m_textureIDs s) (Z.to_nat index)) by lia.
  reflexivity.
Qed.

Lemma textureIDs_update_in s index f t :
  0 <= index ->
  m_textureIDs s !! Z.to_nat index = Some t ->
  textureIDs_update index f s =
    ([], Returned tt
           (with_textureIDs (<[Z.to_nat index := f t]> (m_textureIDs s)) s)).
Proof.
  intros Hpos Hslot. unfold textureIDs_update.
  rewrite (bind_Returned_nil _ _ _ _ _ (textureIDs_at_in s index t Hpos Hslot)).
  reflexivity.
Qed.

Lemma textureIDs_update_out s index f :
  index < 0 \/ Z.of_nat (length (m_textureIDs s)) <= index ->
  textureIDs_update index f s = ([], Fault (OutOfBounds index)).
Proof.
  intros Hout. unfold textureIDs_update.
  apply bind_Fault, textureIDs_at_out, Hout.
Qed.

Lemma objectMaterials_at_in s index m :
  0 <= index ->
  m_objectMaterials s !! Z.to_nat index = Some m ->
  objectMaterials_at index s = ([], Returned m s).
Proof.
  intros Hpos Hm. unfold objectMaterials_at. run.
  destruct (Z.leb_spec 0 index); [|lia]. rewrite Hm. reflexivity.
Qed.

Lemma shader_call_some s sm name v :
  m_pShaderManager s = Some sm ->
  shader_call name v s =
    ([], Returned tt (with_shader (Some ((name, v) :: sm)) s)).
Proof. intros Hsm. unfold shader_call. run. rewrite Hsm. reflexivity. Qed.

Lemma shader_not_null_some s sm :
  m_pShaderManager s = Some sm -> shader_not_null s = ([], Returned true s).
Proof. intros Hsm. unfold shader_not_null. run. rewrite Hsm. reflexivity. Qed.

Lemma registered_lookup s (k : nat) :
  Z.of_nat k < m_loadedTextures s ->
  registered s !! k = m_textureIDs s !! k.
Proof. intros Hk. unfold registered. apply lookup_take_lt. lia. Qed.

Lemma registered_length s :
  Z.of_nat (length (registered s)) <= Z.max 0 (m_loadedTextures s).
Proof. unfold registered. rewrite length_take. lia. Qed.

(** ** The lookup loops compute [first_slot] over the live slots *)

Lemma FindTextureSlot_loop_found s tag' budget textureSlot index :
  FindTextureSlot_loop budget tag' textureSlot index true s =
    ([], Returned textureSlot s).
Proof. destruct budget; simpl; run; rewrite andb_false_r; reflexivity. Qed.

Lemma FindTextureSlot_loop_spec s tag' :
  table_ok s ->
  forall budget index textureSlot,
    0 <= index ->
    m_loadedTextures s - index <= Z.of_nat budget ->
    FindTextureSlot_loop budget tag' textureSlot index false s =
      ([], Returned
             match first_slot tag' (drop (Z.to_nat index) (registered s)) index with
             | Some (i, _) => i
             | None => textureSlot
             end s).
Proof.
  intros Hok. induction budget as [|budget IH]; intros index textureSlot Hpos Hbud.
  - simpl. run. destruct (Z.ltb_spec index (m_loadedTextures s)); [lia|].
    simpl. rewrite drop_ge; [reflexivity|].
    pose proof (registered_length s). lia.
  - simpl. rewrite (bind_Returned_nil get _ s s s eq_refl).
    destruct (Z.ltb_spec index (m_loadedTextures s)) as [Hlt|Hge]; simpl.
    + destruct (lookup_lt_is_Some_2 (m_textureIDs s) (Z.to_nat index)) as [t Ht].
      { unfold table_ok in Hok. lia. }
      rewrite (bind_Returned_nil _ _ _ _ _ (textureIDs_at_in s index t Hpos Ht)).
      assert (Hreg : registered s !! Z.to_nat index = Some t).
      { rewrite registered_lookup by lia. exact Ht. }
      rewrite (drop_S _ _ _ Hreg). simpl.
      destruct (tag t =? tag')%string.
      * apply FindTextureSlot_loop_found.
      * rewrite IH by lia.
        replace (Z.to_nat (index + 1)) with (S (Z.to_nat index)) by lia.
        reflexivity.
    + run. rewrite drop_ge; [reflexivity|].
      pose proof (registered_length s). lia.
Qed.

Lemma FindTextureSlot_spec s tag' :
  table_ok s ->
  FindTextureSlot tag' s =
    ([], Returned
           match first_slot tag' (registered s) 0 with
           | Some (i, _) => i
           | None => -1
           end s).
Proof.
  intros Hok. unfold FindTextureSlot.
  rewrite (bind_Returned_nil get _ s s s eq_refl).
  rewrite FindTextureSlot_loop_spec by (assumption || lia). reflexivity.
Qed.

Lemma FindTextureID_loop_found s tag' budget textureID index :
  FindTextureID_loop budget tag' textureID index true s =
    ([], Returned textureID s).
Proof. destruct budget; simpl; run; rewrite andb_false_r; reflexivity. Qed.

Lemma FindTextureID_loop_spec s tag' :
  table_ok s ->
  forall budget index textureID,
    0 <= index ->
    m_loadedTextures s - index <= Z.of_nat budget ->
    FindTextureID_loop budget tag' textureID index false s =
      ([], Returned
             match first_slot tag' (drop (Z.to_nat index) (registered s)) index with
             | Some (_, t) => to_int (ID t)
             | None => textureID
             end s).
Proof.
  intros Hok. induction budget as [|budget IH]; intros index textureID Hpos Hbud.
  - simpl. run. destruct (Z.ltb_spec index (m_loadedTextures s)); [lia|].
    simpl. rewrite drop_ge; [reflexivity|].
    pose proof (registered_length s). lia.
  - simpl. rewrite (bind_Returned_nil get _ s s s eq_refl).
    destruct (Z.ltb_spec index (m_loadedTextures s)) as [Hlt|Hge]; simpl.
    + destruct (lookup_lt_is_Some_2 (m_textureIDs s) (Z.to_nat index)) as [t Ht].
      { unfold table_ok in Hok. lia. }
      rewrite (bind_Returned_nil _ _ _ _ _ (textureIDs_at_in s index t Hpos Ht)).
      assert (Hreg : registered s !! Z.to_nat index = Some t).
      { rewrite registered_lookup by lia. exact Ht. }
      rewrite (drop_S _ _ _ Hreg). simpl.
      destruct (tag t =? tag')%string.
      * apply FindTextureID_loop_found.
      * rewrite IH by lia.
        replace (Z.to_nat (index + 1)) with (S (Z.to_nat index)) by lia.
        reflexivity.
    + run. rewrite drop_ge; [reflexivity|].
      pose proof (registered_length s). lia.
Qed.

Lemma FindTextureID_spec s tag' :
  table_ok s ->
  FindTextureID tag' s =
    ([], Returned
           match first_slot tag' (registered s) 0 with
           | Some (_, t) => to_int (ID t)
           | None => -1
           end s).
Proof.
  intros Hok. unfold FindTextureID.
  rewrite (bind_Returned_nil get _ s s s eq_refl).
  rewrite FindTextureID_loop_spec by (assumption || lia). reflexivity.
Qed.

(** ** What [first_slot] finds *)

Lemma first_slot_None tag' (slots : list TEXTURE_INFO) index :
  (forall t, t ∈ slots -> tag t <> tag') ->
  first_slot tag' slots index = None.
Proof.
  revert index. induction slots as [|t rest IH]; intros index Hnone; simpl.
  - reflexivity.
  - destruct (String.eqb_spec (tag t) tag') as [Heq|Hne].
    + exfalso. apply (Hnone t); [left|exact Heq].
    + apply IH. intros t' Hin. apply Hnone. right. exact Hin.
Qed.

Lemma first_slot_Some tag' (slots : list TEXTURE_INFO) index (i : nat) t :
  slots !! i = Some t ->
  tag t = tag' ->
  (forall (j : nat) t', (j < i)%nat -> slots !! j = Some t' -> tag t' <> tag') ->
  first_slot tag' slots index = Some (index + Z.of_nat i, t).
Proof.
  revert index i. induction slots as [|t0 rest IH]; intros index i Hi Htag Hfirst.
  - discriminate.
  - simpl. destruct i as [|i].
    + simpl in Hi. injection Hi as ->. rewrite (proj2 (String.eqb_eq _ _) Htag).
      do 2 f_equal. lia.
    + destruct (String.eqb_spec (tag t0) tag') as [Heq|Hne].
      * exfalso. apply (Hfirst 0%nat t0); [lia|reflexivity|exact Heq].
      * rewrite (IH (index + 1) i); [do 2 f_equal; lia|exact Hi|exact Htag|].
        intros j t' Hj Hlook. apply (Hfirst (S j) t'); [lia|exact Hlook].
Qed.

Lemma first_slot_inv tag' (slots : list TEXTURE_INFO) index i t :
  first_slot tag' slots index = Some (i, t) ->
  index <= i < index + Z.of_nat (length slots)
  /\ slots !! Z.to_nat (i - index) = Some t
  /\ tag t = tag'.
Proof.
  revert index. induction slots as [|t0 rest IH]; intros index Hfind.
  - discriminate.
  - simpl in Hfind. destruct (String.eqb_spec (tag t0) tag') as [Heq|Hne].
    + injection Hfind as <- <-. replace (index - index) with 0 by lia.
      simpl. repeat split; try lia. exact Heq.
    + apply IH in Hfind as (Hrange & Hlook & Htag).
      replace (Z.to_nat (i - index)) with (S (Z.to_nat (i - (index + 1)))) by lia.
      simpl length. repeat split; try lia; assumption.
Qed.

(** ** Image decoding *)

(** C7: when the image does not decode, [CreateGLTexture] returns [false]
    after the decoder call and the log line only: no OpenGL call is made and
    the object is left as it was, so whatever runs next runs exactly as it
    would have without the failed load. *)
Theorem CreateGLTexture_decode_failure s (filename tag' : string) (generated : Z) :
  let failed := CreateGLTexture filename tag' None generated in
  failed s =
    ([ stbi_set_flip_vertically_on_load true; stbi_load filename;
       cout (String.append "Failed to load texture:" filename) ],
     Returned false s)
  /\ List.filter is_gl_call (fst (failed s)) = []
  /\ forall (A : Type) (next : M SceneManager A),
       snd ((failed;; next) s) = snd (next s)
       /\ List.filter is_gl_call (fst ((failed;; next) s))
          = List.filter is_gl_call (fst (next s)).
Proof.
  cbv zeta. split; [reflexivity|]. split; [reflexivity|].
  intros A next. unfold CreateGLTexture. run.
  destruct (next s) as [t r]. simpl. split; reflexivity.
Qed.

(** ** Wrap mode *)

Lemma CreateGLTexture_calls s filename tag' img generated :
  fst (CreateGLTexture filename tag' (Some img) generated s) =
  upload_calls filename tag' img generated
    (if (tag' =? "panda")%string || (tag' =? "thinkpad")%string
     then GL_CLAMP_TO_EDGE else GL_REPEAT).
Proof.
  unfold CreateGLTexture, textureIDs_update, textureIDs_at, upload_calls. run.
  destruct ((tag' =? "panda")%string || (tag' =? "thinkpad")%string); simpl;
    destruct (0 <=? m_loadedTextures s); simpl; try reflexivity;
    destruct (m_textureIDs s !! Z.to_nat (m_loadedTextures s)) eqn:Hslot;
    simpl; try reflexivity;
    rewrite list_lookup_insert_eq by (eapply lookup_lt_Some; eassumption);
    reflexivity.
Qed.

(** C9: a load whose image decodes sets the wrap mode twice, once per axis
    and both times to the same mode; that mode is clamp-to-edge exactly for
    the tags "panda" and "thinkpad" and repeat for every other tag, whatever
    the file, the image or the state of the table. *)
Theorem CreateGLTexture_wrap_policy s filename tag' img generated :
  exists mode,
    List.filter is_wrap_call
      (fst (CreateGLTexture filename tag' (Some img) generated s)) =
      [ glTexParameteri GL_TEXTURE_2D GL_TEXTURE_WRAP_S mode;
        glTexParameteri GL_TEXTURE_2D GL_TEXTURE_WRAP_T mode ]
    /\ (mode = GL_CLAMP_TO_EDGE <-> tag' = "panda" \/ tag' = "thinkpad")
    /\ (mode = GL_REPEAT <-> tag' <> "panda" /\ tag' <> "thinkpad")
    /\ "panda" <> "thinkpad".
Proof.
  rewrite CreateGLTexture_calls.
  destruct (String.eqb_spec tag' "panda") as [Hp|Hp];
    destruct (String.eqb_spec tag' "thinkpad") as [Ht|Ht]; simpl;
    eexists; (split; [reflexivity|]); repeat split;
    try discriminate; try tauto; intros; subst; try discriminate;
    intuition discriminate.
Qed.

(** ** Registration *)

Lemma CreateGLTexture_registers s filename tag' img generated t :
  0 <= m_loadedTextures s ->
  m_textureIDs s !! Z.to_nat (m_loadedTextures s) = Some t ->
  snd (CreateGLTexture filename tag' (Some img) generated s) =
    Returned true
      (with_loadedTextures (m_loadedTextures s + 1)
         (with_textureIDs
            (<[Z.to_nat (m_loadedTextures s) :=
                 {| ID := to_uint32 generated; tag := tag' |}]> (m_textureIDs s))
            s)).
Proof.
  intros Hpos Hslot.
  unfold CreateGLTexture, textureIDs_update, textureIDs_at. run.
  assert (Hle : (0 <=? m_loadedTextures s) = true) by (apply Z.leb_le; lia).
  destruct ((tag' =? "panda")%string || (tag' =? "thinkpad")%string); simpl;
    rewrite ?Hle, Hslot; simpl; rewrite ?Hle; simpl;
    rewrite list_lookup_insert_eq by (eapply lookup_lt_Some; eassumption);
    simpl; rewrite list_insert_insert_eq; reflexivity.
Qed.

Lemma CreateGLTexture_overflows s filename tag' img generated :
  0 <= m_loadedTextures s ->
  Z.of_nat (length (m_textureIDs s)) <= m_loadedTextures s ->
  snd (CreateGLTexture filename tag' (Some img) generated s) =
    Fault (OutOfBounds (m_loadedTextures s)).
Proof.
  intros Hpos Hfull.
  unfold CreateGLTexture, textureIDs_update, textureIDs_at. run.
  assert (Hle : (0 <=? m_loadedTextures s) = true) by (apply Z.leb_le; lia).
  assert (Hout : m_textureIDs s !! Z.to_nat (m_loadedTextures s) = None)
    by (apply lookup_ge_None_2; lia).
  destruct ((tag' =? "panda")%string || (tag' =? "thinkpad")%string); simpl;
    rewrite ?Hle, Hout; reflexivity.
Qed.

Lemma LoadAll_spec (loads : list load) :
  forall s,
    0 <= m_loadedTextures s ->
    m_loadedTextures s + Z.of_nat (length loads)
      <= Z.of_nat (length (m_textureIDs s)) ->
    exists calls s',
      LoadAll loads s = (calls, Returned tt s')
      /\ m_loadedTextures s' = m_loadedTextures s + Z.of_nat (length loads)
      /\ m_textureIDs s' =
           take (Z.to_nat (m_loadedTextures s)) (m_textureIDs s)
           ++ (slot_of_load <$> loads)
           ++ drop (Z.to_nat (m_loadedTextures s) + length loads)
                   (m_textureIDs s).
Proof.
  induction loads as [|l rest IH]; intros s Hpos Hroom.
  - exists [], s. simpl. split; [reflexivity|]. split; [lia|].
    rewrite Nat.add_0_r, take_drop. reflexivity.
  - simpl length in Hroom.
    destruct (lookup_lt_is_Some_2 (m_textureIDs s)
                (Z.to_nat (m_loadedTextures s))) as [t Ht]; [lia|].
    pose proof (CreateGLTexture_registers s (load_filename l) (load_tag l)
                  (load_image l) (load_generated l) t Hpos Ht) as Hreg.
    set (s1 := with_loadedTextures _ _) in Hreg.
    destruct (IH s1) as (calls & s' & Hrun & Hcount & Hslots).
    { simpl. lia. }
    { simpl. rewrite length_insert. lia. }
    simpl LoadAll.
    destruct (CreateGLTexture (load_filename l) (load_tag l)
                (Some (load_image l)) (load_generated l) s) as [t1 r1] eqn:Hone.
    simpl in Hreg. subst r1.
    exists (t1 ++ calls), s'. split.
    { rewrite (bind_Returned _ _ _ _ _ _ Hone), Hrun. reflexivity. }
    split.
    { rewrite Hcount. simpl. lia. }
    rewrite Hslots. simpl m_loadedTextures. simpl m_textureIDs.
    replace (Z.to_nat (m_loadedTextures s + 1))
      with (S (Z.to_nat (m_loadedTextures s))) by lia.
    assert (Hlen : (Z.to_nat (m_loadedTextures s) < length (m_textureIDs s))%nat)
      by (eapply lookup_lt_Some; eassumption).
    rewrite (take_S_r _ _ (slot_of_load l))
      by (apply list_lookup_insert_eq; exact Hlen).
    rewrite take_insert_ge by lia.
    rewrite drop_insert_lt by lia.
    rewrite <- app_assoc. simpl.
    rewrite Nat.add_succ_r. reflexivity.
Qed.

(** ** Lookups after a run of loads *)

Lemma first_slot_of_loads (loads : list load) (i : nat) l :
  NoDup (load_tag <$> loads) ->
  loads !! i = Some l ->
  first_slot (load_tag l) (slot_of_load <$> loads) 0
    = Some (Z.of_nat i, slot_of_load l).
Proof.
  intros Hnodup Hl.
  rewrite (first_slot_Some (load_tag l) _ 0 i (slot_of_load l)).
  - reflexivity.
  - rewrite list_lookup_fmap, Hl. reflexivity.
  - reflexivity.
  - intros j t' Hj Hlook Htag.
    rewrite list_lookup_fmap in Hlook.
    destruct (loads !! j) as [l'|] eqn:Hl'; [|discriminate].
    simpl in Hlook. injection Hlook as <-. simpl in Htag.
    assert (j = i); [|lia].
    apply (NoDup_lookup (load_tag <$> loads) j i (load_tag l) Hnodup).
    + rewrite list_lookup_fmap, Hl'. simpl. f_equal. exact Htag.
    + rewrite list_lookup_fmap, Hl. reflexivity.
Qed.

Lemma first_slot_not_loaded (loads : list load) tag' :
  tag' ∉ (load_tag <$> loads) ->
  first_slot tag' (slot_of_load <$> loads) 0 = None.
Proof.
  intros Hfresh. apply first_slot_None. intros t Hin Htag.
  apply list_elem_of_fmap in Hin as (l & -> & Hl).
  apply Hfresh. rewrite <- Htag. simpl.
  apply (list_elem_of_fmap_2 load_tag), Hl.
Qed.

(** C5: starting from a freshly constructed object, any run of at most 16
    loads whose images decode and whose tags are pairwise distinct returns
    normally, and afterwards the i-th load's slot holds its tag and texture
    name, [FindTextureSlot] of its tag returns i, [FindTextureID] of its
    tag returns the name stored in slot i (converted to [int]), and both
    lookups return -1, without any fault, for a tag that was not loaded. *)
Theorem lookups_follow_registration_order
    (pShaderManager : option ShaderManager) (loads : list load) :
  (length loads <= 16)%nat ->
  NoDup (load_tag <$> loads) ->
  exists calls s,
    LoadAll loads (SceneManager_new pShaderManager) = (calls, Returned tt s)
    /\ m_loadedTextures s = Z.of_nat (length loads)
    /\ (forall (i : nat) l,
          loads !! i = Some l ->
          m_textureIDs s !! i
            = Some {| ID := to_uint32 (load_generated l); tag := load_tag l |}
          /\ FindTextureSlot (load_tag l) s = ([], Returned (Z.of_nat i) s)
          /\ FindTextureID (load_tag l) s
             = ([], Returned (to_int (to_uint32 (load_generated l))) s))
    /\ (forall tag',
          tag' ∉ (load_tag <$> loads) ->
          FindTextureSlot tag' s = ([], Returned (-1) s)
          /\ FindTextureID tag' s = ([], Returned (-1) s)).
Proof.
  intros Hlen Hnodup.
  destruct (LoadAll_spec loads (SceneManager_new pShaderManager))
    as (calls & s & Hrun & Hcount & Hslots).
  { simpl. lia. }
  { simpl. lia. }
  simpl in Hcount, Hslots. rewrite Z.add_0_l in Hcount.
  assert (Hreg : registered s = slot_of_load <$> loads).
  { unfold registered. rewrite Hcount, Hslots, Nat2Z.id.
    apply take_app_length'. rewrite length_fmap. reflexivity. }
  assert (Hok : table_ok s).
  { unfold table_ok. rewrite Hcount, Hslots, length_app, length_fmap. lia. }
  exists calls, s. split; [exact Hrun|]. split; [exact Hcount|]. split.
  - intros i l Hl. split; [|split].
    + rewrite Hslots, lookup_app_l.
      * rewrite list_lookup_fmap, Hl. reflexivity.
      * rewrite length_fmap. eapply lookup_lt_Some, Hl.
    + rewrite FindTextureSlot_spec, Hreg by exact Hok.
      rewrite (first_slot_of_loads loads i l Hnodup Hl). reflexivity.
    + rewrite FindTextureID_spec, Hreg by exact Hok.
      rewrite (first_slot_of_loads loads i l Hnodup Hl). reflexivity.
  - intros tag' Hfresh. split.
    + rewrite FindTextureSlot_spec, Hreg by exact Hok.
      rewrite first_slot_not_loaded by exact Hfresh. reflexivity.
    + rewrite FindTextureID_spec, Hreg by exact Hok.
      rewrite first_slot_not_loaded by exact Hfresh. reflexivity.
Qed.

(** ** Capacity *)

(** C1 fails on the code.  With all 16 slots registered and an image that
    decodes, [CreateGLTexture] makes every OpenGL call of a load, the upload
    [glTexImage2D] among them, and then stores into element 16 of the
    16-element slot array: it does not return [false], and it has uploaded
    before reaching the store. *)
Theorem CreateGLTexture_full_table_overflows s filename tag' img generated :
  Z.of_nat (length (m_textureIDs s)) = MAX_TEXTURES ->
  m_loadedTextures s = MAX_TEXTURES ->
  exists calls format,
    CreateGLTexture filename tag' (Some img) generated s
      = (calls, Fault (OutOfBounds 16))
    /\ In (glTexImage2D GL_TEXTURE_2D 0 format (width img) (height img) 0
                        format GL_UNSIGNED_BYTE img) calls.
Proof.
  intros Hlen Hfull. unfold MAX_TEXTURES in *.
  pose proof (CreateGLTexture_calls s filename tag' img generated) as Hcalls.
  pose proof (CreateGLTexture_overflows s filename tag' img generated) as Hover.
  rewrite Hfull in Hover.
  destruct (CreateGLTexture filename tag' (Some img) generated s) as [calls r].
  simpl in Hcalls, Hover. subst calls. rewrite Hover by lia.
  do 2 eexists. split; [reflexivity|].
  unfold upload_calls. simpl. do 8 right. left. reflexivity.
Qed.

(** ** Binding *)

Lemma BindGLTextures_loop_returns :
  forall budget i s,
    0 <= i ->
    m_loadedTextures s - i <= Z.of_nat budget ->
    table_ok s ->
    exists calls, BindGLTextures_loop budget i s = (calls, Returned tt s).
Proof.
  induction budget as [|budget IH]; intros i s Hpos Hbud Hok.
  - exists []. simpl. run.
    destruct (Z.ltb_spec i (m_loadedTextures s)); [lia|]. reflexivity.
  - simpl. rewrite (bind_Returned_nil get _ s s s eq_refl).
    destruct (Z.ltb_spec i (m_loadedTextures s)) as [Hlt|Hge].
    + destruct (lookup_lt_is_Some_2 (m_textureIDs s) (Z.to_nat i)) as [t Ht].
      { unfold table_ok in Hok. lia. }
      destruct (IH (i + 1) s) as (calls & Hrun); [lia|lia|exact Hok|].
      exists (glActiveTexture i :: glBindTexture GL_TEXTURE_2D (ID t) :: calls).
      rewrite (bind_Returned (emit _) _ s _ tt s eq_refl).
      rewrite (bind_Returned_nil _ _ _ _ _ (textureIDs_at_in s i t Hpos Ht)).
      rewrite (bind_Returned (emit _) _ s _ tt s eq_refl).
      rewrite Hrun. reflexivity.
    + exists []. reflexivity.
Qed.

(** Binding issues OpenGL calls only: the object, and so every later
    lookup, is as before. *)
Lemma BindGLTextures_keeps_object s :
  table_ok s -> exists calls, BindGLTextures s = (calls, Returned tt s).
Proof.
  intros Hok. unfold BindGLTextures.
  rewrite (bind_Returned_nil get _ s s s eq_refl).
  apply BindGLTextures_loop_returns; [lia|lia|exact Hok].
Qed.

(** ** Release *)

Lemma DestroyGLTextures_loop_returns :
  forall budget i s,
    0 <= i ->
    m_loadedTextures s - i <= Z.of_nat budget ->
    table_ok s ->
    exists calls s',
      DestroyGLTextures_loop budget i s = (calls, Returned tt s')
      /\ m_loadedTextures s' = m_loadedTextures s
      /\ length (m_textureIDs s') = length (m_textureIDs s)
      /\ m_pShaderManager s' = m_pShaderManager s
      /\ m_objectMaterials s' = m_objectMaterials s.
Proof.
  induction budget as [|budget IH]; intros i s Hpos Hbud Hok.
  - exists [], s. simpl. run.
    destruct (Z.ltb_spec i (m_loadedTextures s)); [lia|]. repeat split.
  - simpl. rewrite (bind_Returned_nil get _ s s s eq_refl).
    destruct (Z.ltb_spec i (m_loadedTextures s)) as [Hlt|Hge].
    + destruct (lookup_lt_is_Some_2 (m_textureIDs s) (Z.to_nat i)) as [t Ht].
      { unfold table_ok in Hok. lia. }
      rewrite (bind_Returned_nil _ _ _ _ _ (textureIDs_at_in s i t Hpos Ht)).
      destruct (ID t =? 0); simpl negb; cbv iota.
      * rewrite (bind_Returned_nil (ret tt) _ s tt s eq_refl).
        apply IH; [lia|lia|exact Hok].
      * set (s1 := with_textureIDs (<[Z.to_nat i := set_ID 0 t]> (m_textureIDs s)) s).
        destruct (IH (i + 1) s1) as (calls & s' & Hrun & Hcount & Hlen & Hsm & Hmat).
        { lia. }
        { simpl. lia. }
        { unfold table_ok. simpl. rewrite length_insert. exact Hok. }
        assert (Hblock :
                  (emit (glDeleteTextures 1 (ID t));;
                   textureIDs_update i (set_ID 0)) s
                  = ([glDeleteTextures 1 (ID t)], Returned tt s1)).
        { rewrite (bind_Returned (emit _) _ s _ tt s eq_refl).
          rewrite (textureIDs_update_in s i (set_ID 0) t Hpos Ht).
          reflexivity. }
        exists (glDeleteTextures 1 (ID t) :: calls), s'. split.
        { rewrite (bind_Returned _ _ _ _ _ _ Hblock), Hrun. reflexivity. }
        rewrite Hcount, Hlen, Hsm, Hmat. simpl. rewrite length_insert.
        repeat split.
    + exists [], s. run. repeat split.
Qed.

(** C6: on any object whose count does not exceed its slot array,
    [DestroyGLTextures] returns normally with the count at 0; running it
    again makes no call and changes nothing, so twice is the same as once;
    and afterwards [FindTextureSlot] and [FindTextureID] return -1 for every
    tag. *)
Theorem DestroyGLTextures_idempotent s :
  table_ok s ->
  exists calls s1,
    DestroyGLTextures s = (calls, Returned tt s1)
    /\ m_loadedTextures s1 = 0
    /\ DestroyGLTextures s1 = ([], Returned tt s1)
    /\ (DestroyGLTextures;; DestroyGLTextures) s = (calls, Returned tt s1)
    /\ forall tag',
         FindTextureSlot tag' s1 = ([], Returned (-1) s1)
         /\ FindTextureID tag' s1 = ([], Returned (-1) s1).
Proof.
  intros Hok.
  destruct (DestroyGLTextures_loop_returns
              (Z.to_nat (m_loadedTextures s)) 0 s) as (calls & s' & Hrun & _);
    [lia|lia|exact Hok|].
  assert (Hone : DestroyGLTextures s
                 = (calls, Returned tt (with_loadedTextures 0 s'))).
  { unfold DestroyGLTextures.
    rewrite (bind_Returned_nil get _ s s s eq_refl).
    rewrite (bind_Returned _ _ _ _ _ _ Hrun). simpl.
    rewrite app_nil_r. reflexivity. }
  assert (Htwo : DestroyGLTextures (with_loadedTextures 0 s')
                 = ([], Returned tt (with_loadedTextures 0 s'))).
  { reflexivity. }
  assert (Hempty : table_ok (with_loadedTextures 0 s')).
  { unfold table_ok. simpl. lia. }
  exists calls, (with_loadedTextures 0 s').
  split; [exact Hone|]. split; [reflexivity|]. split; [exact Htwo|]. split.
  { rewrite (bind_Returned _ _ _ _ _ _ Hone), Htwo. simpl.
    rewrite app_nil_r. reflexivity. }
  intros tag'. split.
  - rewrite FindTextureSlot_spec by exact Hempty. reflexivity.
  - rewrite FindTextureID_spec by exact Hempty. reflexivity.
Qed.

(** ** Materials *)

Lemma FindMaterial_loop_found s tag' budget material index :
  FindMaterial_loop budget tag' material index true s =
    ([], Returned (true, material) s).
Proof. destruct budget; simpl; run; rewrite andb_false_r; reflexivity. Qed.

Lemma FindMaterial_loop_spec s tag' :
  forall budget index material,
    0 <= index ->
    Z.of_nat (length (m_objectMaterials s)) - index <= Z.of_nat budget ->
    FindMaterial_loop budget tag' material index false s =
      ([], Returned
             match first_material tag'
                     (drop (Z.to_nat index) (m_objectMaterials s)) with
             | Some m => (true, copy_material m material)
             | None => (false, material)
             end s).
Proof.
  induction budget as [|budget IH]; intros index material Hpos Hbud.
  - simpl. run.
    destruct (Z.ltb_spec index (Z.of_nat (length (m_objectMaterials s)))); [lia|].
    simpl. rewrite drop_ge by lia. reflexivity.
  - simpl. rewrite (bind_Returned_nil get _ s s s eq_refl).
    destruct (Z.ltb_spec index (Z.of_nat (length (m_objectMaterials s))))
      as [Hlt|Hge]; simpl.
    + destruct (lookup_lt_is_Some_2 (m_objectMaterials s) (Z.to_nat index))
        as [m Hm]; [lia|].
      rewrite (bind_Returned_nil _ _ _ _ _ (objectMaterials_at_in s index m Hpos Hm)).
      rewrite (drop_S _ _ _ Hm). simpl.
      destruct (mtag m =? tag')%string.
      * apply FindMaterial_loop_found.
      * rewrite IH by lia.
        replace (Z.to_nat (index + 1)) with (S (Z.to_nat index)) by lia.
        reflexivity.
    + run. rewrite drop_ge by lia. reflexivity.
Qed.

Lemma FindMaterial_spec s tag' material :
  FindMaterial tag' material s =
    ([], Returned
           match m_objectMaterials s with
           | [] => (false, material)
           | _ :: _ =>
             (true,
              match first_material tag' (m_objectMaterials s) with
              | Some m => copy_material m material
              | None => material
              end)
           end s).
Proof.
  unfold FindMaterial. rewrite (bind_Returned_nil get _ s s s eq_refl).
  destruct (m_objectMaterials s) as [|m0 rest] eqn:Hmats; [reflexivity|].
  destruct (Z.eqb_spec (Z.of_nat (length (m0 :: rest))) 0) as [Hzero|_];
    [simpl in Hzero; lia|].
  erewrite bind_Returned_nil.
  2: { rewrite FindMaterial_loop_spec by (rewrite ?Hmats; simpl; lia).
       reflexivity. }
  rewrite Hmats. simpl drop.
  destruct (first_material tag' (m0 :: rest)); reflexivity.
Qed.

Lemma first_material_None tag' (materials : list (@OBJECT_MATERIAL float)) :
  (forall m, m ∈ materials -> mtag m <> tag') ->
  first_material tag' materials = None.
Proof.
  induction materials as [|m rest IH]; intros Hnone; simpl.
  - reflexivity.
  - destruct (String.eqb_spec (mtag m) tag') as [Heq|Hne].
    + exfalso. apply (Hnone m); [left|exact Heq].
    + apply IH. intros m' Hin. apply Hnone. right. exact Hin.
Qed.

(** On an empty registry the lookup does report a miss, and nothing is
    pushed. *)
Lemma SetShaderMaterial_empty_registry s materialTag indeterminate :
  m_objectMaterials s = [] ->
  FindMaterial materialTag indeterminate s
    = ([], Returned (false, indeterminate) s)
  /\ SetShaderMaterial materialTag indeterminate s = ([], Returned tt s).
Proof.
  intros Hempty. split.
  - rewrite FindMaterial_spec, Hempty. reflexivity.
  - unfold SetShaderMaterial. run. rewrite Hempty. reflexivity.
Qed.

(** C2 fails on the code.  On a registry that is not empty and holds no
    material with the tag, [FindMaterial] reports [true] and hands back the
    caller's object untouched; [SetShaderMaterial] then makes all three
    setter calls, with whatever its uninitialised local held, so the
    material uniforms do not keep their previous values. *)
Theorem FindMaterial_reports_absent_tag_found s sm materialTag indeterminate :
  m_pShaderManager s = Some sm ->
  m_objectMaterials s <> [] ->
  (forall m, m ∈ m_objectMaterials s -> mtag m <> materialTag) ->
  FindMaterial materialTag indeterminate s
    = ([], Returned (true, indeterminate) s)
  /\ SetShaderMaterial materialTag indeterminate s
     = ([], Returned tt
              (with_shader
                 (Some (("material.shininess",
                         FloatValue (shininess indeterminate))
                        :: ("material.specularColor",
                            Vec3Value (specularColor indeterminate))
                        :: ("material.diffuseColor",
                            Vec3Value (diffuseColor indeterminate))
                        :: sm)) s)).
Proof.
  intros Hsm Hnonempty Habsent.
  assert (Hfind : FindMaterial materialTag indeterminate s
                  = ([], Returned (true, indeterminate) s)).
  { rewrite FindMaterial_spec, first_material_None by exact Habsent.
    destruct (m_objectMaterials s); [contradiction|reflexivity]. }
  split; [exact Hfind|].
  unfold SetShaderMaterial. rewrite (bind_Returned_nil get _ s s s eq_refl).
  destruct (m_objectMaterials s) as [|m0 rest] eqn:Hmats; [contradiction|].
  destruct (Z.ltb_spec 0 (Z.of_nat (length (m0 :: rest)))) as [_|Hzero];
    [|simpl in Hzero; lia].
  cbv beta iota.
  rewrite (bind_Returned_nil _ _ _ _ _ Hfind). simpl.
  unfold setVec3Value, setFloatValue.
  rewrite (bind_Returned_nil _ _ _ _ _ (shader_call_some s sm _ _ Hsm)).
  erewrite bind_Returned_nil by (apply shader_call_some; reflexivity).
  erewrite shader_call_some by reflexivity. reflexivity.
Qed.

(** ** Setter calls through a non-null shader manager *)

Lemma SetShaderColor_spec s sm r g b a :
  m_pShaderManager s = Some sm ->
  SetShaderColor r g b a s =
    ([], Returned tt
           (with_shader
              (Some (("objectColor", Vec4Value (mk_vec4 r g b a))
                       :: ("bUseTexture", IntValue 0) :: sm)) s)).
Proof.
  intros Hsm. unfold SetShaderColor, setIntValue, setVec4Value.
  rewrite (bind_Returned_nil _ _ _ _ _ (shader_not_null_some s sm Hsm)).
  rewrite (bind_Returned_nil _ _ _ _ _ (shader_call_some s sm _ _ Hsm)).
  rewrite (shader_call_some _ (("bUseTexture", IntValue 0) :: sm)) by reflexivity.
  reflexivity.
Qed.

Lemma SetShaderTexture_spec s sm textureTag :
  m_pShaderManager s = Some sm ->
  table_ok s ->
  SetShaderTexture textureTag s =
    ([], Returned tt
           (with_shader
              (Some (("objectTexture",
                      Sampler2DValue
                        match first_slot textureTag (registered s) 0 with
                        | Some (i, _) => i
                        | None => -1
                        end)
                       :: ("bUseTexture", IntValue 1) :: sm)) s)).
Proof.
  intros Hsm Hok. unfold SetShaderTexture, setIntValue, setSampler2DValue.
  rewrite (bind_Returned_nil _ _ _ _ _ (shader_not_null_some s sm Hsm)).
  rewrite (bind_Returned_nil _ _ _ _ _ (shader_call_some s sm _ _ Hsm)).
  rewrite (bind_Returned_nil _ _ _ _ _
             (FindTextureSlot_spec
                (with_shader (Some (("bUseTexture", IntValue 1) :: sm)) s)
                textureTag Hok)).
  rewrite (shader_call_some _ (("bUseTexture", IntValue 1) :: sm)) by reflexivity.
  reflexivity.
Qed.

(** ** Texture flag *)

(** C8: through a non-null shader manager and for a tag carried by no live
    slot, [SetShaderTexture] returns normally after two setter calls: it
    writes 1 (true) to "bUseTexture" and then the sentinel -1 to the sampler
    uniform "objectTexture". *)
Theorem SetShaderTexture_unregistered_tag s sm textureTag :
  m_pShaderManager s = Some sm ->
  table_ok s ->
  (forall t, t ∈ registered s -> tag t <> textureTag) ->
  exists s',
    SetShaderTexture textureTag s = ([], Returned tt s')
    /\ s' = with_shader
              (Some (("objectTexture", Sampler2DValue (-1))
                       :: ("bUseTexture", IntValue 1) :: sm)) s
    /\ shader_uniform s' "bUseTexture" = Some (IntValue 1)
    /\ shader_uniform s' "objectTexture" = Some (Sampler2DValue (-1)).
Proof.
  intros Hsm Hok Hnone. eexists. split.
  - rewrite (SetShaderTexture_spec s sm) by assumption.
    rewrite first_slot_None by assumption. reflexivity.
  - repeat split.
Qed.

(** C4: through a non-null shader manager the "bUseTexture" flag is decided
    by whichever of [SetShaderColor] and [SetShaderTexture] ran last.  Color
    then texture leaves the flag at 1 and the sampler uniform at the unit
    [FindTextureSlot] resolves the tag to; texture then color leaves the
    flag at 0.  Neither order makes any other call or stops at a fault. *)
Theorem use_texture_flag_last_write_wins s sm r g b a textureTag :
  m_pShaderManager s = Some sm ->
  table_ok s ->
  exists unit_index s1 s2,
    FindTextureSlot textureTag s = ([], Returned unit_index s)
    /\ (SetShaderColor r g b a;; SetShaderTexture textureTag) s
       = ([], Returned tt s1)
    /\ shader_uniform s1 "bUseTexture" = Some (IntValue 1)
    /\ shader_uniform s1 "objectTexture" = Some (Sampler2DValue unit_index)
    /\ (SetShaderTexture textureTag;; SetShaderColor r g b a) s
       = ([], Returned tt s2)
    /\ shader_uniform s2 "bUseTexture" = Some (IntValue 0).
Proof.
  intros Hsm Hok. do 3 eexists. split; [apply FindTextureSlot_spec, Hok|].
  split.
  { rewrite (bind_Returned_nil _ _ _ _ _ (SetShaderColor_spec s sm r g b a Hsm)).
    eapply SetShaderTexture_spec; [reflexivity|exact Hok]. }
  split; [reflexivity|]. split; [reflexivity|]. split.
  { rewrite (bind_Returned_nil _ _ _ _ _
               (SetShaderTexture_spec s sm textureTag Hsm Hok)).
    eapply SetShaderColor_spec. reflexivity. }
  reflexivity.
Qed.

(** ** Null shader manager *)

(** C10: with a null [m_pShaderManager], each of [SetTransformations],
    [SetShaderColor], [SetShaderTexture] and [SetTextureUVScale] returns
    normally, makes no call and leaves the object unchanged; in particular
    no setter is invoked and no texture lookup is made. *)
Theorem null_shader_manager_noop s :
  m_pShaderManager s = None ->
  (forall scaleXYZ x y z positionXYZ,
      SetTransformations scaleXYZ x y z positionXYZ s = ([], Returned tt s))
  /\ (forall r g b a, SetShaderColor r g b a s = ([], Returned tt s))
  /\ (forall textureTag, SetShaderTexture textureTag s = ([], Returned tt s))
  /\ (forall u v, SetTextureUVScale u v s = ([], Returned tt s)).
Proof.
  intros Hnull.
  unfold SetTransformations, SetShaderColor, SetShaderTexture,
    SetTextureUVScale, shader_not_null.
  run. rewrite Hnull. repeat split.
Qed.

(** ** Model matrix *)

(** C3: through a non-null shader manager, [SetTransformations] makes one
    setter call, on the uniform "model", with the matrix
    Translate(position) x RotateZ(z) x RotateY(y) x RotateX(x) x Scale(scale),
    multiplied left to right in that order, whatever the state of the
    object. *)
Theorem SetTransformations_model_matrix s sm scaleXYZ x y z positionXYZ :
  m_pShaderManager s = Some sm ->
  let modelView := ComposeModelMatrix scaleXYZ (mk_vec3 x y z) positionXYZ in
  SetTransformations scaleXYZ x y z positionXYZ s =
    ([], Returned tt
           (with_shader (Some (("model", Mat4Value modelView) :: sm)) s))
  /\ modelView =
       mat4_mul
         (mat4_mul
            (mat4_mul
               (mat4_mul (Translate positionXYZ) (RotateZ z))
               (RotateY y))
            (RotateX x))
         (Scale scaleXYZ).
Proof.
  intros Hsm. cbv zeta. split; [|reflexivity].
  unfold SetTransformations, shader_not_null, setMat4Value, shader_call.
  run. rewrite Hsm. simpl. rewrite Hsm. reflexivity.
Qed.

End SceneFacts.

(** * Further properties of the class *)

(** ** Sequencing, continued *)

Lemma bind_assoc {S A B C} (m : M S A) (k : A -> M S B) (h : B -> M S C) s :
  bind (bind m k) h s = bind m (fun a => bind (k a) h) s.
Proof.
  unfold bind. destruct (m s) as [t [a s'|f]]; [|reflexivity].
  destruct (k a s') as [t' [b s''|f]]; [|reflexivity].
  destruct (h b s'') as [t'' r]. rewrite app_assoc. reflexivity.
Qed.

Lemma bind_ret_r {S A} (m : M S A) s : bind m ret s = m s.
Proof.
  unfold bind, ret. destruct (m s) as [t [a s'|f]]; [|reflexivity].
  rewrite app_nil_r. reflexivity.
Qed.

Lemma bind_ext {S A B} (m : M S A) (k k' : A -> M S B) s :
  (forall a s', k a s' = k' a s') -> bind m k s = bind m k' s.
Proof.
  intros Hk. unfold bind. destruct (m s) as [t [a s'|f]]; [|reflexivity].
  rewrite Hk. reflexivity.
Qed.

Lemma bind_ret_l {S A B} (a : A) (k : A -> M S B) s : bind (ret a) k s = k a s.
Proof. unfold bind, ret. destruct (k a s). reflexivity. Qed.

Section SetupFacts.

Context {float : Type} `{G : Glm float} `{L : FloatLiteral float}.

Implicit Types (s : SceneManager) (sm : ShaderManager).

Ltac run :=
  unfold bind, get, put, emit, ret, raise; simpl.

(** ** [first_slot] over a table that grew *)

Lemma first_slot_app tag' (l1 l2 : list TEXTURE_INFO) index :
  first_slot tag' (l1 ++ l2) index =
    match first_slot tag' l1 index with
    | Some r => Some r
    | None => first_slot tag' l2 (index + Z.of_nat (length l1))
    end.
Proof.
  revert index. induction l1 as [|t rest IH]; intros index; simpl.
  - rewrite Z.add_0_r. reflexivity.
  - destruct (tag t =? tag')%string; [reflexivity|].
    rewrite IH. replace (index + 1 + Z.of_nat (length rest))
      with (index + Z.pos (Pos.of_succ_nat (length rest))) by lia.
    reflexivity.
Qed.

Lemma first_slot_None_inv tag' (slots : list TEXTURE_INFO) index :
  first_slot tag' slots index = None ->
  forall t, t ∈ slots -> tag t <> tag'.
Proof.
  revert index. induction slots as [|t0 rest IH]; intros index Hnone t Hin.
  - inversion Hin.
  - simpl in Hnone. destruct (String.eqb_spec (tag t0) tag') as [Heq|Hne];
      [discriminate|].
    apply elem_of_cons in Hin as [->|Hin]; [exact Hne|].
    eapply IH; eassumption.
Qed.

Lemma first_slot_first tag' (slots : list TEXTURE_INFO) index i t :
  first_slot tag' slots index = Some (i, t) ->
  forall (j : nat) t',
    (j < Z.to_nat (i - index))%nat -> slots !! j = Some t' -> tag t' <> tag'.
Proof.
  revert index. induction slots as [|t0 rest IH]; intros index Hfind j t' Hj Hlook.
  - discriminate.
  - simpl in Hfind. destruct (String.eqb_spec (tag t0) tag') as [Heq|Hne].
    + injection Hfind as <- <-. replace (index - index) with 0 in Hj by lia.
      simpl in Hj. lia.
    + destruct j as [|j].
      * simpl in Hlook. injection Hlook as <-. exact Hne.
      * pose proof (first_slot_inv _ _ _ _ _ Hfind) as (Hrange & _).
        apply (IH (index + 1) Hfind j t'); [lia|exact Hlook].
Qed.

(** ** A run of attempts *)

Lemma CreateGLTexture_outcome s filename tag' img generated :
  0 <= m_loadedTextures s < Z.of_nat (length (m_textureIDs s)) ->
  exists calls,
    CreateGLTexture filename tag' (Some img) generated s =
      (calls,
       Returned true
         (with_loadedTextures (m_loadedTextures s + 1)
            (with_textureIDs
               (<[Z.to_nat (m_loadedTextures s) :=
                    {| ID := to_uint32 generated; tag := tag' |}]>
                  (m_textureIDs s)) s))).
Proof.
  intros Hroom.
  destruct (lookup_lt_is_Some_2 (m_textureIDs s)
              (Z.to_nat (m_loadedTextures s))) as [t Ht]; [lia|].
  pose proof (CreateGLTexture_registers s filename tag' img generated t
                (proj1 Hroom) Ht) as Hreg.
  destruct (CreateGLTexture filename tag' (Some img) generated s) as [calls r].
  exists calls. simpl in Hreg. rewrite Hreg. reflexivity.
Qed.

Lemma CreateGLTexture_None s filename tag' generated :
  exists calls,
    CreateGLTexture filename tag' None generated s = (calls, Returned false s).
Proof. eexists. reflexivity. Qed.

Lemma SceneManager_eta s :
  with_loadedTextures (m_loadedTextures s) (with_textureIDs (m_textureIDs s) s)
  = s.
Proof. destruct s. reflexivity. Qed.

Lemma LoadAttempts_spec (attempts : list attempt) :
  forall s,
    0 <= m_loadedTextures s ->
    m_loadedTextures s + Z.of_nat (length (decoded attempts))
      <= Z.of_nat (length (m_textureIDs s)) ->
    exists calls,
      LoadAttempts attempts s =
        (calls,
         Returned tt
           (with_loadedTextures
              (m_loadedTextures s + Z.of_nat (length (decoded attempts)))
              (with_textureIDs
                 (take (Z.to_nat (m_loadedTextures s)) (m_textureIDs s)
                  ++ decoded attempts
                  ++ drop (Z.to_nat (m_loadedTextures s)
                           + length (decoded attempts)) (m_textureIDs s))
                 s))).
Proof.
  induction attempts as [|a rest IH]; intros s Hpos Hroom.
  - exists []. simpl. rewrite Z.add_0_r, Nat.add_0_r, take_drop.
    rewrite SceneManager_eta. reflexivity.
  - simpl LoadAttempts. simpl decoded in *.
    destruct (attempt_image a) as [img|].
    + simpl length in Hroom.
      destruct (CreateGLTexture_outcome s (attempt_filename a) (attempt_tag a)
                  img (attempt_generated a)) as (calls1 & Hone); [lia|].
      set (s1 := with_loadedTextures _ _) in Hone.
      destruct (IH s1) as (calls & Hrun).
      { simpl. lia. }
      { simpl. rewrite length_insert. lia. }
      exists (calls1 ++ calls).
      rewrite (bind_Returned _ _ _ _ _ _ Hone), Hrun. simpl.
      unfold with_loadedTextures, with_textureIDs, s1. simpl.
      do 2 f_equal. f_equal.
      * replace (Z.to_nat (m_loadedTextures s + 1))
          with (S (Z.to_nat (m_loadedTextures s))) by lia.
        rewrite (take_S_r _ _ {| ID := to_uint32 (attempt_generated a);
                                 tag := attempt_tag a |})
          by (apply list_lookup_insert_eq; lia).
        rewrite take_insert_ge by lia.
        rewrite drop_insert_lt by lia.
        rewrite <- app_assoc. simpl. rewrite Nat.add_succ_r. reflexivity.
      * lia.
    + destruct (IH s Hpos Hroom) as (calls & Hrun).
      destruct (CreateGLTexture_None s (attempt_filename a) (attempt_tag a)
                  (attempt_generated a)) as (calls1 & Hone).
      exists (calls1 ++ calls).
      rewrite (bind_Returned _ _ _ _ _ _ Hone), Hrun. reflexivity.
Qed.

Lemma registered_grown s (added : list TEXTURE_INFO) :
  0 <= m_loadedTextures s ->
  table_ok s ->
  registered
    (with_loadedTextures (m_loadedTextures s + Z.of_nat (length added))
       (with_textureIDs
          (take (Z.to_nat (m_loadedTextures s)) (m_textureIDs s)
           ++ added
           ++ drop (Z.to_nat (m_loadedTextures s) + length added)
                   (m_textureIDs s)) s))
  = registered s ++ added.
Proof.
  intros Hpos Hok. unfold registered, table_ok in *. simpl.
  rewrite app_assoc. apply take_app_length'.
  rewrite length_app, length_take. lia.
Qed.

Lemma registered_insert s x :
  0 <= m_loadedTextures s < Z.of_nat (length (m_textureIDs s)) ->
  registered
    (with_loadedTextures (m_loadedTextures s + 1)
       (with_textureIDs
          (<[Z.to_nat (m_loadedTextures s) := x]> (m_textureIDs s)) s))
  = registered s ++ [x].
Proof.
  intros Hroom. unfold registered. simpl.
  replace (Z.to_nat (m_loadedTextures s + 1))
    with (S (Z.to_nat (m_loadedTextures s))) by lia.
  rewrite (take_S_r _ _ x) by (apply list_lookup_insert_eq; lia).
  rewrite take_insert_ge by lia. reflexivity.
Qed.

Lemma registered_length_ok s :
  0 <= m_loadedTextures s ->
  table_ok s ->
  Z.of_nat (length (registered s)) = m_loadedTextures s.
Proof.
  intros Hpos Hok. unfold registered, table_ok in *.
  rewrite length_take_le by lia. lia.
Qed.

Lemma first_slot_NoDup (slots : list TEXTURE_INFO) (i : nat) t :
  NoDup (tag <$> slots) ->
  slots !! i = Some t ->
  first_slot (tag t) slots 0 = Some (Z.of_nat i, t).
Proof.
  intros Hnodup Ht.
  rewrite (first_slot_Some (tag t) slots 0 i t Ht eq_refl); [reflexivity|].
  intros j t' Hj Hlook Htag.
  assert (j = i); [|lia].
  apply (NoDup_lookup (tag <$> slots) j i (tag t) Hnodup).
  - rewrite list_lookup_fmap, Hlook. simpl. f_equal. exact Htag.
  - rewrite list_lookup_fmap, Ht. reflexivity.
Qed.

(** Reads the value out of a lookup that returned. *)
Lemma returned_value {A} (v w : A) s :
  (([] : list call), Returned v s) = ([], Returned w s) -> v = w.
Proof. intros Heq. injection Heq as ->. reflexivity. Qed.

(** ** One more load on any table *)

(** X1: on any table with a free slot, a load whose image decodes and whose
    tag no live slot carries returns [true], raises the count by one, and
    makes the tag resolve to the slot index it was given (the old count) and
    to the texture name OpenGL generated; a name below 2^31 comes back from
    [FindTextureID] exactly. *)
Theorem load_then_lookup s filename tag' img generated :
  0 <= m_loadedTextures s < Z.of_nat (length (m_textureIDs s)) ->
  (forall t, t ∈ registered s -> tag t <> tag') ->
  exists calls s',
    CreateGLTexture filename tag' (Some img) generated s
      = (calls, Returned true s')
    /\ m_loadedTextures s' = m_loadedTextures s + 1
    /\ FindTextureSlot tag' s' = ([], Returned (m_loadedTextures s) s')
    /\ FindTextureID tag' s'
       = ([], Returned (to_int (to_uint32 generated)) s')
    /\ (0 <= generated < 2 ^ 31 -> to_int (to_uint32 generated) = generated).
Proof.
  intros Hroom Hfresh.
  destruct (CreateGLTexture_outcome s filename tag' img generated Hroom)
    as (calls & Hone).
  set (s' := with_loadedTextures _ _) in Hone.
  assert (Hok' : table_ok s').
  { unfold table_ok, s'. simpl. rewrite length_insert. lia. }
  assert (Hfind : first_slot tag' (registered s') 0
                  = Some (m_loadedTextures s,
                          {| ID := to_uint32 generated; tag := tag' |})).
  { unfold s'. rewrite registered_insert by exact Hroom.
    rewrite first_slot_app, (first_slot_None _ _ _ Hfresh). simpl.
    rewrite String.eqb_refl, registered_length_ok;
      [reflexivity|lia|unfold table_ok; lia]. }
  exists calls, s'. split; [exact Hone|]. split; [reflexivity|]. split; [|split].
  - rewrite FindTextureSlot_spec, Hfind by exact Hok'. reflexivity.
  - rewrite FindTextureID_spec, Hfind by exact Hok'. reflexivity.
  - intros Hsmall. unfold to_uint32, to_int.
    rewrite Z.mod_small by lia.
    destruct (Z.ltb_spec generated (2 ^ 31)); lia.
Qed.

(** X2: a load that returns [true] changes no answer for any other tag:
    whatever [FindTextureSlot] and [FindTextureID] returned for a tag
    different from the loaded one, they return afterwards. *)
Theorem load_keeps_other_lookups s filename tag' img generated other :
  0 <= m_loadedTextures s < Z.of_nat (length (m_textureIDs s)) ->
  other <> tag' ->
  exists calls s',
    CreateGLTexture filename tag' (Some img) generated s
      = (calls, Returned true s')
    /\ (forall v, FindTextureSlot other s = ([], Returned v s) ->
                  FindTextureSlot other s' = ([], Returned v s'))
    /\ (forall v, FindTextureID other s = ([], Returned v s) ->
                  FindTextureID other s' = ([], Returned v s')).
Proof.
  intros Hroom Hother.
  destruct (CreateGLTexture_outcome s filename tag' img generated Hroom)
    as (calls & Hone).
  set (s' := with_loadedTextures _ _) in Hone.
  assert (Hok : table_ok s) by (unfold table_ok; lia).
  assert (Hok' : table_ok s').
  { unfold table_ok, s'. simpl. rewrite length_insert. lia. }
  assert (Hfind : first_slot other (registered s') 0
                  = first_slot other (registered s) 0).
  { unfold s'. rewrite registered_insert by exact Hroom.
    rewrite first_slot_app. destruct (first_slot other (registered s) 0);
      [reflexivity|].
    simpl. destruct (String.eqb_spec tag' other); [congruence|reflexivity]. }
  exists calls, s'. split; [exact Hone|]. split; intros v Hv.
  - rewrite FindTextureSlot_spec in Hv by exact Hok.
    apply returned_value in Hv as <-.
    rewrite FindTextureSlot_spec, Hfind by exact Hok'. reflexivity.
  - rewrite FindTextureID_spec in Hv by exact Hok.
    apply returned_value in Hv as <-.
    rewrite FindTextureID_spec, Hfind by exact Hok'. reflexivity.
Qed.

(** X3: loading a tag that a live slot already carries does not replace
    it.  The load returns [true], uploads and occupies a new slot, but both
    lookups keep answering with the earlier slot: the new texture cannot be
    reached by its tag. *)
Theorem load_duplicate_tag_is_shadowed s filename tag' img generated unit_index :
  0 <= m_loadedTextures s < Z.of_nat (length (m_textureIDs s)) ->
  FindTextureSlot tag' s = ([], Returned unit_index s) ->
  unit_index <> -1 ->
  exists calls s',
    CreateGLTexture filename tag' (Some img) generated s
      = (calls, Returned true s')
    /\ m_textureIDs s' !! Z.to_nat (m_loadedTextures s)
       = Some {| ID := to_uint32 generated; tag := tag' |}
    /\ 0 <= unit_index < m_loadedTextures s
    /\ FindTextureSlot tag' s' = ([], Returned unit_index s')
    /\ (forall v, FindTextureID tag' s = ([], Returned v s) ->
                  FindTextureID tag' s' = ([], Returned v s')).
Proof.
  intros Hroom Hunit Hfound.
  destruct (CreateGLTexture_outcome s filename tag' img generated Hroom)
    as (calls & Hone).
  set (s' := with_loadedTextures _ _) in Hone.
  assert (Hok : table_ok s) by (unfold table_ok; lia).
  assert (Hok' : table_ok s').
  { unfold table_ok, s'. simpl. rewrite length_insert. lia. }
  rewrite FindTextureSlot_spec in Hunit by exact Hok.
  apply returned_value in Hunit.
  destruct (first_slot tag' (registered s) 0) as [[i t]|] eqn:Hfirst;
    [|congruence].
  subst i.
  assert (Hfind : first_slot tag' (registered s') 0 = Some (unit_index, t)).
  { unfold s'. rewrite registered_insert by exact Hroom.
    rewrite first_slot_app, Hfirst. reflexivity. }
  exists calls, s'. split; [exact Hone|]. split; [|split; [|split]].
  - unfold s'. simpl. apply list_lookup_insert_eq. lia.
  - apply first_slot_inv in Hfirst as (Hrange & _).
    rewrite registered_length_ok in Hrange by (exact Hok || lia). lia.
  - rewrite FindTextureSlot_spec, Hfind by exact Hok'. reflexivity.
  - intros v Hv. rewrite FindTextureID_spec, Hfirst in Hv by exact Hok.
    apply returned_value in Hv as <-.
    rewrite FindTextureID_spec, Hfind by exact Hok'. reflexivity.
Qed.


(** ** Lookups agree with each other and stay in range *)

(** X4: on a table whose count lies within the array, the two lookups
    always return and always agree.  Either no live slot carries the tag
    and both return -1, or [FindTextureSlot] returns the index of the first
    live slot with the tag, which lies in 0 .. count-1, and
    [FindTextureID] returns the name stored in that same slot. *)
Theorem lookups_agree s tag' :
  table_ok s ->
  exists unit_index,
    FindTextureSlot tag' s = ([], Returned unit_index s)
    /\ ((unit_index = -1
         /\ FindTextureID tag' s = ([], Returned (-1) s)
         /\ forall t, t ∈ registered s -> tag t <> tag')
        \/ (0 <= unit_index < m_loadedTextures s
            /\ exists t,
                 m_textureIDs s !! Z.to_nat unit_index = Some t
                 /\ tag t = tag'
                 /\ FindTextureID tag' s = ([], Returned (to_int (ID t)) s)
                 /\ forall (j : nat) t',
                      (j < Z.to_nat unit_index)%nat ->
                      m_textureIDs s !! j = Some t' -> tag t' <> tag')).
Proof.
  intros Hok. eexists. split; [apply FindTextureSlot_spec, Hok|].
  rewrite FindTextureID_spec by exact Hok.
  destruct (first_slot tag' (registered s) 0) as [[i t]|] eqn:Hfirst.
  - right.
    pose proof (first_slot_inv _ _ _ _ _ Hfirst) as (Hrange & Hlook & Htag).
    pose proof (first_slot_first _ _ _ _ _ Hfirst) as Hmin.
    pose proof (registered_length s) as Hlen.
    rewrite Z.sub_0_r in Hlook, Hmin.
    split; [lia|]. exists t.
    rewrite registered_lookup in Hlook by lia.
    repeat split; try assumption.
    intros j t' Hj Hlook'. apply (Hmin j t' Hj).
    rewrite registered_lookup by lia. exact Hlook'.
  - left. repeat split. eapply first_slot_None_inv, Hfirst.
Qed.

(** ** Binding *)

Lemma BindGLTextures_loop_calls s :
  table_ok s ->
  forall budget i,
    0 <= i ->
    m_loadedTextures s - i <= Z.of_nat budget ->
    BindGLTextures_loop budget i s =
      (bind_calls i (drop (Z.to_nat i) (registered s)), Returned tt s).
Proof.
  intros Hok. induction budget as [|budget IH]; intros i Hpos Hbud.
  - simpl. run. destruct (Z.ltb_spec i (m_loadedTextures s)); [lia|].
    rewrite drop_ge; [reflexivity|]. pose proof (registered_length s). lia.
  - simpl. rewrite (bind_Returned_nil get _ s s s eq_refl).
    destruct (Z.ltb_spec i (m_loadedTextures s)) as [Hlt|Hge].
    + destruct (lookup_lt_is_Some_2 (m_textureIDs s) (Z.to_nat i)) as [t Ht].
      { unfold table_ok in Hok. lia. }
      assert (Hreg : registered s !! Z.to_nat i = Some t).
      { rewrite registered_lookup by lia. exact Ht. }
      rewrite (drop_S _ _ _ Hreg). simpl.
      rewrite (bind_Returned (emit _) _ s _ tt s eq_refl).
      rewrite (bind_Returned_nil _ _ _ _ _ (textureIDs_at_in s i t Hpos Ht)).
      rewrite (bind_Returned (emit _) _ s _ tt s eq_refl).
      rewrite IH by lia.
      replace (Z.to_nat (i + 1)) with (S (Z.to_nat i)) by lia.
      reflexivity.
    + run. rewrite drop_ge; [reflexivity|].
      pose proof (registered_length s). lia.
Qed.

Lemma bind_calls_lookup (slots : list TEXTURE_INFO) :
  forall unit_index (i : nat) t,
    slots !! i = Some t ->
    bind_calls unit_index slots !! (2 * i)%nat
      = Some (glActiveTexture (unit_index + Z.of_nat i))
    /\ bind_calls unit_index slots !! (2 * i + 1)%nat
       = Some (glBindTexture GL_TEXTURE_2D (ID t)).
Proof.
  induction slots as [|t0 rest IH]; intros unit_index i t Ht.
  - discriminate.
  - destruct i as [|i].
    + simpl in Ht. injection Ht as <-. simpl. rewrite Z.add_0_r. split; reflexivity.
    + replace (2 * S i)%nat with (S (S (2 * i))) by lia.
      replace (S (S (2 * i)) + 1)%nat with (S (S (2 * i + 1))) by lia.
      simpl in Ht. destruct (IH (unit_index + 1) i t Ht) as [Hact Hbind].
      simpl. split.
      * simpl in Hact. rewrite Hact. f_equal. f_equal. lia.
      * exact Hbind.
Qed.

(** X5: [BindGLTextures] leaves the object as it is and issues, for each
    live slot in order, [glActiveTexture(GL_TEXTURE0 + i)] followed by
    [glBindTexture] of the name stored in slot i, and nothing else: texture
    unit i receives the texture of slot i, the index [FindTextureSlot]
    returns.  On an empty table it makes no call. *)
Theorem BindGLTextures_units s :
  table_ok s ->
  exists calls,
    BindGLTextures s = (calls, Returned tt s)
    /\ length calls = (2 * length (registered s))%nat
    /\ forall (i : nat) t,
         registered s !! i = Some t ->
         calls !! (2 * i)%nat = Some (glActiveTexture (Z.of_nat i))
         /\ calls !! (2 * i + 1)%nat = Some (glBindTexture GL_TEXTURE_2D (ID t)).
Proof.
  intros Hok. exists (bind_calls 0 (registered s)). split; [|split].
  - unfold BindGLTextures. rewrite (bind_Returned_nil get _ s s s eq_refl).
    rewrite BindGLTextures_loop_calls by (exact Hok || lia). reflexivity.
  - generalize 0. induction (registered s) as [|t rest IH]; intros u; simpl.
    + reflexivity.
    + rewrite IH. lia.
  - intros i t Ht. apply (bind_calls_lookup _ 0 i t Ht).
Qed.

(** ** Release *)

Lemma with_textureIDs_eta s : with_textureIDs (m_textureIDs s) s = s.
Proof. destruct s. reflexivity. Qed.

Lemma set_ID_zero t : ID t = 0 -> set_ID 0 t = t.
Proof. destruct t. simpl. intros ->. reflexivity. Qed.

Lemma DestroyGLTextures_loop_spec :
  forall budget i s,
    0 <= i <= m_loadedTextures s ->
    m_loadedTextures s - i <= Z.of_nat budget ->
    table_ok s ->
    DestroyGLTextures_loop budget i s =
      (delete_calls (drop (Z.to_nat i) (registered s)),
       Returned tt
         (with_textureIDs
            (take (Z.to_nat i) (m_textureIDs s)
             ++ (set_ID 0 <$> drop (Z.to_nat i) (registered s))
             ++ drop (Z.to_nat (m_loadedTextures s)) (m_textureIDs s))
            s)).
Proof.
  induction budget as [|budget IH]; intros i s Hpos Hbud Hok.
  - assert (i = m_loadedTextures s) as -> by lia.
    simpl. run. rewrite Z.ltb_irrefl.
    rewrite drop_ge by (pose proof (registered_length s); lia).
    simpl. rewrite take_drop, with_textureIDs_eta. reflexivity.
  - simpl. rewrite (bind_Returned_nil get _ s s s eq_refl).
    destruct (Z.ltb_spec i (m_loadedTextures s)) as [Hlt|Hge].
    + destruct (lookup_lt_is_Some_2 (m_textureIDs s) (Z.to_nat i)) as [t Ht].
      { unfold table_ok in Hok. lia. }
      assert (Hreg : registered s !! Z.to_nat i = Some t).
      { rewrite registered_lookup by lia. exact Ht. }
      rewrite (bind_Returned_nil _ _ _ _ _ (textureIDs_at_in s i t (proj1 Hpos) Ht)).
      rewrite (drop_S _ _ _ Hreg). simpl delete_calls. simpl fmap.
      destruct (Z.eqb_spec (ID t) 0) as [Hzero|Hnonzero]; simpl negb; cbv iota.
      * rewrite (bind_Returned_nil (ret tt) _ s tt s eq_refl).
        rewrite IH by (exact Hok || lia).
        replace (Z.to_nat (i + 1)) with (S (Z.to_nat i)) by lia.
        rewrite (take_S_r _ _ _ Ht), <- app_assoc. simpl.
        rewrite (set_ID_zero t Hzero). reflexivity.
      * set (s1 := with_textureIDs (<[Z.to_nat i := set_ID 0 t]> (m_textureIDs s)) s).
        assert (Hblock :
                  (emit (glDeleteTextures 1 (ID t));;
                   textureIDs_update i (set_ID 0)) s
                  = ([glDeleteTextures 1 (ID t)], Returned tt s1)).
        { rewrite (bind_Returned (emit _) _ s _ tt s eq_refl).
          rewrite (textureIDs_update_in s i (set_ID 0) t (proj1 Hpos) Ht).
          reflexivity. }
        rewrite (bind_Returned _ _ _ _ _ _ Hblock).
        rewrite (IH (i + 1) s1).
        2: { simpl. lia. }
        2: { simpl. lia. }
        2: { unfold table_ok. simpl. rewrite length_insert. exact Hok. }
        replace (Z.to_nat (i + 1)) with (S (Z.to_nat i)) by lia.
        assert (Hlen : (Z.to_nat i < length (m_textureIDs s))%nat)
          by (eapply lookup_lt_Some; eassumption).
        unfold registered, s1. simpl.
        rewrite (take_S_r _ _ (set_ID 0 t))
          by (apply list_lookup_insert_eq; exact Hlen).
        rewrite (take_insert_ge _ (Z.to_nat i) (Z.to_nat i)) by lia.
        rewrite (take_insert_lt _ (Z.to_nat (m_loadedTextures s))) by lia.
        rewrite !drop_insert_lt by lia.
        rewrite <- app_assoc. reflexivity.
    + assert (i = m_loadedTextures s) as -> by lia.
      run. rewrite drop_ge by (pose proof (registered_length s); lia).
      simpl. rewrite take_drop, with_textureIDs_eta. reflexivity.
Qed.

Lemma DestroyGLTextures_spec s :
  table_ok s ->
  DestroyGLTextures s =
    (delete_calls (registered s),
     Returned tt
       (with_loadedTextures 0
          (with_textureIDs
             ((set_ID 0 <$> registered s)
              ++ drop (Z.to_nat (m_loadedTextures s)) (m_textureIDs s))
             s))).
Proof.
  intros Hok. unfold DestroyGLTextures.
  rewrite (bind_Returned_nil get _ s s s eq_refl).
  destruct (Z.le_gt_cases 0 (m_loadedTextures s)) as [Hpos|Hneg].
  - erewrite bind_Returned
      by (apply DestroyGLTextures_loop_spec; [lia|lia|exact Hok]).
    simpl. rewrite app_nil_r. reflexivity.
  - unfold registered.
    replace (Z.to_nat (m_loadedTextures s)) with 0%nat by lia.
    simpl. run. destruct (Z.ltb_spec 0 (m_loadedTextures s)); [lia|].
    simpl. reflexivity.
Qed.

Lemma delete_calls_elem (slots : list TEXTURE_INFO) c :
  c ∈ delete_calls slots
  <-> exists t, t ∈ slots /\ ID t <> 0 /\ c = glDeleteTextures 1 (ID t).
Proof.
  induction slots as [|t0 rest IH]; simpl.
  - split; [intros Hin; inversion Hin|intros (t & Hin & _); inversion Hin].
  - destruct (Z.eqb_spec (ID t0) 0) as [Hzero|Hnonzero].
    + rewrite IH. split.
      * intros (t & Hin & Hid & Hc). exists t. split; [right; exact Hin|tauto].
      * intros (t & Hin & Hid & Hc). exists t.
        apply elem_of_cons in Hin as [->|Hin]; [contradiction|tauto].
    + rewrite elem_of_cons, IH. split.
      * intros [->|(t & Hin & Hid & Hc)].
        -- exists t0. split; [left|tauto].
        -- exists t. split; [right; exact Hin|tauto].
      * intros (t & Hin & Hid & Hc).
        apply elem_of_cons in Hin as [->|Hin]; [left; exact Hc|].
        right. exists t. tauto.
Qed.

(** X6: on a table whose count lies within the array, [DestroyGLTextures]
    calls [glDeleteTextures] for exactly the live slots whose name is not 0
    (a name of 0 is skipped) and makes no other call.  Afterwards the count
    is 0 and every formerly live slot keeps its tag with the name set to 0;
    the slots past the count, the shader pointer and the materials are as
    before. *)
Theorem DestroyGLTextures_deletes_live_textures s :
  table_ok s ->
  exists calls s',
    DestroyGLTextures s = (calls, Returned tt s')
    /\ (forall c,
          c ∈ calls
          <-> exists t, t ∈ registered s /\ ID t <> 0
                        /\ c = glDeleteTextures 1 (ID t))
    /\ m_loadedTextures s' = 0
    /\ length (m_textureIDs s') = length (m_textureIDs s)
    /\ (forall (i : nat) t,
          m_textureIDs s !! i = Some t ->
          m_textureIDs s' !! i
            = Some (if Z.of_nat i <? m_loadedTextures s
                    then {| ID := 0; tag := tag t |} else t))
    /\ m_pShaderManager s' = m_pShaderManager s
    /\ m_objectMaterials s' = m_objectMaterials s.
Proof.
  intros Hok. do 2 eexists. split; [apply DestroyGLTextures_spec, Hok|].
  split; [apply delete_calls_elem|]. split; [reflexivity|].
  assert (Hlen : length (registered s)
                 = Z.to_nat (m_loadedTextures s)).
  { unfold registered, table_ok in *. rewrite length_take. lia. }
  split; [|split; [|split; reflexivity]].
  - simpl. rewrite length_app, length_fmap, length_drop, Hlen.
    unfold table_ok in Hok. lia.
  - intros i t Ht. simpl.
    destruct (Z.ltb_spec (Z.of_nat i) (m_loadedTextures s)) as [Hlive|Hpast].
    + rewrite lookup_app_l by (rewrite length_fmap, Hlen; lia).
      rewrite list_lookup_fmap, registered_lookup, Ht by lia. reflexivity.
    + rewrite lookup_app_r by (rewrite length_fmap, Hlen; lia).
      rewrite length_fmap, Hlen, lookup_drop, <- Ht. f_equal. lia.
Qed.

(** ** The table invariant *)

Lemma table_inv_ok s : table_inv s -> table_ok s.
Proof. unfold table_inv, table_ok. lia. Qed.



(** ** Loads that may fail *)

Lemma decoded_app (l1 l2 : list attempt) :
  decoded (l1 ++ l2) = decoded l1 ++ decoded l2.
Proof.
  induction l1 as [|a rest IH]; simpl; [reflexivity|].
  destruct (attempt_image a); rewrite IH; reflexivity.
Qed.

Lemma decoded_length (l : list attempt) :
  (length (decoded l) <= length l)%nat.
Proof.
  induction l as [|a rest IH]; simpl; [lia|].
  destruct (attempt_image a); simpl; lia.
Qed.

Lemma decoded_elem (l : list attempt) t :
  t ∈ decoded l ->
  exists a, a ∈ l /\ attempt_image a <> None /\ tag t = attempt_tag a.
Proof.
  induction l as [|a rest IH]; simpl; intros Hin.
  - inversion Hin.
  - destruct (attempt_image a) as [img|] eqn:Himg.
    + apply elem_of_cons in Hin as [->|Hin].
      * exists a. split; [left|]. rewrite Himg. split; [discriminate|reflexivity].
      * destruct (IH Hin) as (a' & Hin' & Hdec & Htag).
        exists a'. split; [right; exact Hin'|tauto].
    + destruct (IH Hin) as (a' & Hin' & Hdec & Htag).
      exists a'. split; [right; exact Hin'|tauto].
Qed.

Lemma decoded_tags_sublist (l : list attempt) :
  (tag <$> decoded l) `sublist_of` (attempt_tag <$> l).
Proof.
  induction l as [|a rest IH]; simpl; [constructor|].
  destruct (attempt_image a); simpl.
  - apply sublist_skip, IH.
  - apply sublist_cons, IH.
Qed.

Lemma LoadAttempts_fresh pSM (attempts : list attempt) :
  (length (decoded attempts) <= 16)%nat ->
  exists calls s,
    LoadAttempts attempts (SceneManager_new pSM) = (calls, Returned tt s)
    /\ table_inv s
    /\ registered s = decoded attempts
    /\ m_loadedTextures s = Z.of_nat (length (decoded attempts))
    /\ m_pShaderManager s = pSM
    /\ m_objectMaterials s = [].
Proof.
  intros Hlen.
  destruct (LoadAttempts_spec attempts (SceneManager_new pSM))
    as (calls & Hrun); [simpl; lia|simpl; lia|].
  do 2 eexists. split; [exact Hrun|]. split; [|split; [|repeat split]].
  - unfold table_inv, MAX_TEXTURES. simpl.
    rewrite length_app, length_drop. simpl. lia.
  - apply (registered_grown (SceneManager_new pSM) (decoded attempts));
      [simpl; lia|unfold table_ok; simpl; lia].
Qed.

(** X8: on a fresh object, in a run of loads where some images may fail to
    decode, a texture's unit is the number of images that decoded before
    it, not its position in the run: every failed load moves all later
    textures one unit down.  A tag none of whose loads decoded is not
    found. *)
Theorem units_count_decoded_images pSM (before after : list attempt) a img :
  attempt_image a = Some img ->
  (length (decoded (before ++ a :: after)) <= 16)%nat ->
  (forall t, t ∈ decoded before -> tag t <> attempt_tag a) ->
  exists calls s,
    LoadAttempts (before ++ a :: after) (SceneManager_new pSM)
      = (calls, Returned tt s)
    /\ m_loadedTextures s = Z.of_nat (length (decoded (before ++ a :: after)))
    /\ FindTextureSlot (attempt_tag a) s
       = ([], Returned (Z.of_nat (length (decoded before))) s)
    /\ FindTextureID (attempt_tag a) s
       = ([], Returned (to_int (to_uint32 (attempt_generated a))) s)
    /\ (forall tag',
          (forall t, t ∈ decoded (before ++ a :: after) -> tag t <> tag') ->
          FindTextureSlot tag' s = ([], Returned (-1) s)
          /\ FindTextureID tag' s = ([], Returned (-1) s)).
Proof.
  intros Himg Hlen Hfresh.
  destruct (LoadAttempts_fresh pSM (before ++ a :: after) Hlen)
    as (calls & s & Hrun & Hinv & Hreg & Hcount & _).
  pose proof (table_inv_ok s Hinv) as Hok.
  assert (Hfind : first_slot (attempt_tag a) (registered s) 0
                  = Some (Z.of_nat (length (decoded before)),
                          {| ID := to_uint32 (attempt_generated a);
                             tag := attempt_tag a |})).
  { rewrite Hreg, decoded_app, first_slot_app.
    rewrite (first_slot_None _ _ _ Hfresh). simpl. rewrite Himg. simpl.
    rewrite String.eqb_refl. reflexivity. }
  exists calls, s. split; [exact Hrun|]. split; [exact Hcount|].
  split; [|split].
  - rewrite FindTextureSlot_spec, Hfind by exact Hok. reflexivity.
  - rewrite FindTextureID_spec, Hfind by exact Hok. reflexivity.
  - intros tag' Habsent. rewrite <- Hreg in Habsent. split.
    + rewrite FindTextureSlot_spec, first_slot_None by assumption. reflexivity.
    + rewrite FindTextureID_spec, first_slot_None by assumption. reflexivity.
Qed.

(** ** LoadSceneTextures() *)

Lemma LoadSceneTextures_attempts answers s :
  LoadSceneTextures answers s
  = (LoadAttempts (scene_attempts answers);; BindGLTextures) s.
Proof.
  unfold LoadSceneTextures, scene_attempts. simpl.
  symmetry.
  repeat (rewrite bind_assoc; apply bind_ext; intros ? ?).
  apply (bind_ret_l tt (fun _ => BindGLTextures)).
Qed.

Lemma scene_tags_NoDup answers :
  NoDup (attempt_tag <$> scene_attempts answers).
Proof.
  unfold scene_attempts. simpl.
  repeat (apply NoDup_cons; split;
          [rewrite ?not_elem_of_cons;
           repeat split; try discriminate; apply not_elem_of_nil|]).
  apply NoDup_nil_2.
Qed.

(** X9: on a fresh object [LoadSceneTextures] always returns, whichever of
    its sixteen images decode: it never stores past the array, and leaves
    the table invariant in place.  The textures that decoded are registered
    in source order, then bound; each of them resolves to its own slot and
    name, and a scene tag whose image failed is not found. *)
Theorem LoadSceneTextures_fresh pSM answers :
  exists loading s,
    LoadSceneTextures answers (SceneManager_new pSM)
      = (loading ++ bind_calls 0 (registered s), Returned tt s)
    /\ table_inv s
    /\ registered s = decoded (scene_attempts answers)
    /\ (forall (i : nat) t,
          registered s !! i = Some t ->
          FindTextureSlot (tag t) s = ([], Returned (Z.of_nat i) s)
          /\ FindTextureID (tag t) s = ([], Returned (to_int (ID t)) s))
    /\ (forall a,
          a ∈ scene_attempts answers ->
          attempt_image a = None ->
          FindTextureSlot (attempt_tag a) s = ([], Returned (-1) s)
          /\ FindTextureID (attempt_tag a) s = ([], Returned (-1) s)).
Proof.
  destruct (LoadAttempts_fresh pSM (scene_attempts answers))
    as (loading & s & Hrun & Hinv & Hreg & _).
  { pose proof (decoded_length (scene_attempts answers)) as Hlen.
    unfold scene_attempts in Hlen. rewrite length_imap in Hlen.
    simpl in Hlen. exact Hlen. }
  pose proof (table_inv_ok s Hinv) as Hok.
  assert (Hnodup : NoDup (tag <$> registered s)).
  { rewrite Hreg. eapply sublist_NoDup;
      [apply (scene_tags_NoDup answers)|apply decoded_tags_sublist]. }
  exists loading, s. split; [|split; [exact Hinv|split; [exact Hreg|split]]].
  - rewrite LoadSceneTextures_attempts.
    rewrite (bind_Returned _ _ _ _ _ _ Hrun).
    unfold BindGLTextures. rewrite (bind_Returned_nil get _ s s s eq_refl).
    rewrite BindGLTextures_loop_calls by (exact Hok || lia). reflexivity.
  - intros i t Ht. split.
    + rewrite FindTextureSlot_spec, (first_slot_NoDup _ i t Hnodup Ht)
        by exact Hok. reflexivity.
    + rewrite FindTextureID_spec, (first_slot_NoDup _ i t Hnodup Ht)
        by exact Hok. reflexivity.
  - intros a Hin Hfail.
    assert (Habsent : forall t, t ∈ registered s -> tag t <> attempt_tag a).
    { intros t Ht Htag. rewrite Hreg in Ht.
      apply decoded_elem in Ht as (a' & Hin' & Hdec & Htag').
      apply list_elem_of_lookup in Hin as (n & Hn).
      apply list_elem_of_lookup in Hin' as (n' & Hn').
      assert (n' = n).
      { apply (NoDup_lookup _ n' n (attempt_tag a) (scene_tags_NoDup answers)).
        - rewrite list_lookup_fmap, Hn'. simpl. congruence.
        - rewrite list_lookup_fmap, Hn. reflexivity. }
      subst n'. congruence. }
    split.
    + rewrite FindTextureSlot_spec, first_slot_None by assumption. reflexivity.
    + rewrite FindTextureID_spec, first_slot_None by assumption. reflexivity.
Qed.

(** ** Release, then load again *)

(** X10: releasing makes the table as good as new.  On any object that
    satisfies the table invariant, [DestroyGLTextures] followed by a run of
    loads returns, whenever the same run returns on a fresh object, with the
    same live slots and the same answer to every lookup: the tags left over
    in the array by the released textures are never found. *)
Theorem release_then_reload s pSM (attempts : list attempt) :
  table_inv s ->
  (length (decoded attempts) <= 16)%nat ->
  exists calls s' calls0 s0,
    (DestroyGLTextures;; LoadAttempts attempts) s = (calls, Returned tt s')
    /\ LoadAttempts attempts (SceneManager_new pSM) = (calls0, Returned tt s0)
    /\ registered s' = registered s0
    /\ forall tag', exists unit_index name,
         FindTextureSlot tag' s' = ([], Returned unit_index s')
         /\ FindTextureSlot tag' s0 = ([], Returned unit_index s0)
         /\ FindTextureID tag' s' = ([], Returned name s')
         /\ FindTextureID tag' s0 = ([], Returned name s0).
Proof.
  intros Hinv Hlen.
  destruct (LoadAttempts_fresh pSM attempts Hlen)
    as (calls0 & s0 & Hrun0 & Hinv0 & Hreg0 & _).
  pose proof (DestroyGLTextures_spec s (table_inv_ok s Hinv)) as Hdestroy.
  set (s1 := with_loadedTextures 0 _) in Hdestroy.
  assert (Hlen1 : length (m_textureIDs s1) = 16%nat).
  { unfold s1, table_inv, MAX_TEXTURES in *. simpl.
    rewrite length_app, length_fmap, length_drop.
    unfold registered. rewrite length_take. lia. }
  destruct (LoadAttempts_spec attempts s1) as (calls1 & Hrun1);
    [simpl; lia|simpl m_loadedTextures; lia|].
  set (s' := with_loadedTextures _ _) in Hrun1.
  assert (Hreg' : registered s' = decoded attempts).
  { apply (registered_grown s1 (decoded attempts));
      [simpl; lia|unfold table_ok; simpl m_loadedTextures; lia]. }
  assert (Hok' : table_ok s').
  { unfold table_ok, s'. simpl m_loadedTextures. simpl m_textureIDs.
    rewrite length_app. lia. }
  exists (delete_calls (registered s) ++ calls1), s', calls0, s0.
  split; [|split; [exact Hrun0|split; [congruence|]]].
  - rewrite (bind_Returned _ _ _ _ _ _ Hdestroy), Hrun1. reflexivity.
  - intros tag'. do 2 eexists.
    rewrite !FindTextureSlot_spec, !FindTextureID_spec
      by (exact Hok' || apply table_inv_ok, Hinv0).
    rewrite Hreg', Hreg0. repeat split.
Qed.

(** ** A fresh object, and the destructor *)

(** X11: on a freshly constructed object nothing is registered: both
    lookups return -1 for every tag, the placeholder tag "/0" the
    constructor writes into the slots included; [FindMaterial] reports
    [false]; binding and releasing make no OpenGL call. *)
Theorem fresh_object_is_empty pSM :
  let s := SceneManager_new pSM in
  table_inv s
  /\ (forall tag',
        FindTextureSlot tag' s = ([], Returned (-1) s)
        /\ FindTextureID tag' s = ([], Returned (-1) s))
  /\ (forall tag' material,
        FindMaterial tag' material s = ([], Returned (false, material) s))
  /\ BindGLTextures s = ([], Returned tt s)
  /\ DestroyGLTextures s = ([], Returned tt s).
Proof.
  cbv zeta. split; [|repeat split].
  unfold table_inv, MAX_TEXTURES. simpl. lia.
Qed.

(** X12: the destructor, on a table whose count lies within the array,
    still releases the textures although it has cleared the shader pointer
    first: it deletes exactly the live textures whose name is not 0 and
    leaves a null pointer and a count of 0. *)
Theorem SceneManager_delete_releases s :
  table_ok s ->
  exists calls s',
    SceneManager_delete s = (calls, Returned tt s')
    /\ (forall c,
          c ∈ calls
          <-> exists t, t ∈ registered s /\ ID t <> 0
                        /\ c = glDeleteTextures 1 (ID t))
    /\ m_pShaderManager s' = None
    /\ m_loadedTextures s' = 0.
Proof.
  intros Hok. unfold SceneManager_delete.
  do 2 eexists. split.
  - rewrite (bind_Returned_nil get _ s s s eq_refl).
    rewrite (bind_Returned_nil (put _) _ s tt (with_shader None s) eq_refl).
    apply (DestroyGLTextures_spec (with_shader None s)). exact Hok.
  - split; [apply (delete_calls_elem (registered s))|split; reflexivity].
Qed.

(** ** Materials *)

Lemma first_material_app tag' (l1 l2 : list (@OBJECT_MATERIAL float)) :
  first_material tag' (l1 ++ l2) =
    match first_material tag' l1 with
    | Some m => Some m
    | None => first_material tag' l2
    end.
Proof.
  induction l1 as [|m rest IH]; simpl; [reflexivity|].
  destruct (mtag m =? tag')%string; [reflexivity|exact IH].
Qed.

Lemma first_material_NoDup (l : list (@OBJECT_MATERIAL float)) m :
  NoDup (mtag <$> l) -> m ∈ l -> first_material (mtag m) l = Some m.
Proof.
  induction l as [|m0 rest IH]; intros Hnodup Hin.
  - inversion Hin.
  - simpl in Hnodup. apply NoDup_cons in Hnodup as [Hfresh Hnodup].
    simpl. destruct (String.eqb_spec (mtag m0) (mtag m)) as [Heq|Hne].
    + apply elem_of_cons in Hin as [->|Hin]; [reflexivity|].
      exfalso. apply Hfresh. rewrite Heq.
      apply (list_elem_of_fmap_2 mtag), Hin.
    + apply elem_of_cons in Hin as [->|Hin]; [congruence|].
      apply IH; assumption.
Qed.

Lemma SetShaderMaterial_found s sm materialTag indeterminate m :
  m_pShaderManager s = Some sm ->
  first_material materialTag (m_objectMaterials s) = Some m ->
  FindMaterial materialTag indeterminate s
    = ([], Returned (true, copy_material m indeterminate) s)
  /\ SetShaderMaterial materialTag indeterminate s
     = ([], Returned tt
              (with_shader
                 (Some (("material.shininess", FloatValue (shininess m))
                        :: ("material.specularColor",
                            Vec3Value (specularColor m))
                        :: ("material.diffuseColor",
                            Vec3Value (diffuseColor m))
                        :: sm)) s)).
Proof.
  intros Hsm Hfirst.
  assert (Hfind : FindMaterial materialTag indeterminate s
                  = ([], Returned (true, copy_material m indeterminate) s)).
  { rewrite FindMaterial_spec, Hfirst.
    destruct (m_objectMaterials s); [discriminate|reflexivity]. }
  split; [exact Hfind|].
  unfold SetShaderMaterial. rewrite (bind_Returned_nil get _ s s s eq_refl).
  destruct (m_objectMaterials s) as [|m0 rest] eqn:Hmats; [discriminate|].
  destruct (Z.ltb_spec 0 (Z.of_nat (length (m0 :: rest)))) as [_|Hzero];
    [|simpl in Hzero; lia].
  cbv beta iota.
  rewrite (bind_Returned_nil _ _ _ _ _ Hfind). simpl.
  unfold setVec3Value, setFloatValue.
  rewrite (bind_Returned_nil _ _ _ _ _ (shader_call_some s sm _ _ Hsm)).
  erewrite bind_Returned_nil by (apply shader_call_some; reflexivity).
  erewrite shader_call_some by reflexivity. reflexivity.
Qed.

(** X13: material lookup is first-match.  When the registry holds a
    material with the tag, [FindMaterial] returns [true] and copies the
    diffuse colour, specular colour and shininess of the first such material
    into the caller's object, leaving the object's own tag field alone; a
    later material with the same tag is never returned.
    [SetShaderMaterial] then pushes those three values, in that order,
    through a non-null shader manager. *)
Theorem material_first_match_wins s sm
    (before after : list (@OBJECT_MATERIAL float)) m materialTag indeterminate :
  m_pShaderManager s = Some sm ->
  m_objectMaterials s = before ++ m :: after ->
  mtag m = materialTag ->
  (forall m', m' ∈ before -> mtag m' <> materialTag) ->
  FindMaterial materialTag indeterminate s
    = ([], Returned
             (true,
              {| diffuseColor := diffuseColor m;
                 specularColor := specularColor m;
                 shininess := shininess m;
                 mtag := mtag indeterminate |}) s)
  /\ SetShaderMaterial materialTag indeterminate s
     = ([], Returned tt
              (with_shader
                 (Some (("material.shininess", FloatValue (shininess m))
                        :: ("material.specularColor",
                            Vec3Value (specularColor m))
                        :: ("material.diffuseColor",
                            Vec3Value (diffuseColor m))
                        :: sm)) s)).
Proof.
  intros Hsm Hmats Htag Hbefore.
  apply (SetShaderMaterial_found s sm materialTag indeterminate m Hsm).
  rewrite Hmats, first_material_app, (first_material_None _ _ Hbefore).
  simpl. rewrite (proj2 (String.eqb_eq _ _) Htag). reflexivity.
Qed.

(** X14: [SetShaderMaterial] has no null check.  With a null shader
    manager it is harmless only while the registry is empty; once any
    material is registered it calls through the null pointer, for every
    tag, registered or not. *)
Theorem SetShaderMaterial_null_shader s materialTag indeterminate :
  m_pShaderManager s = None ->
  (m_objectMaterials s = [] ->
   SetShaderMaterial materialTag indeterminate s = ([], Returned tt s))
  /\ (m_objectMaterials s <> [] ->
      SetShaderMaterial materialTag indeterminate s
        = ([], Fault NullDereference)).
Proof.
  intros Hnull. split; intros Hmats.
  - unfold SetShaderMaterial. run. rewrite Hmats. reflexivity.
  - unfold SetShaderMaterial. rewrite (bind_Returned_nil get _ s s s eq_refl).
    destruct (m_objectMaterials s) as [|m0 rest] eqn:Hm; [contradiction|].
    destruct (Z.ltb_spec 0 (Z.of_nat (length (m0 :: rest)))) as [_|Hzero];
      [|simpl in Hzero; lia].
    cbv beta iota.
    erewrite bind_Returned_nil by (rewrite FindMaterial_spec, Hm; reflexivity).
    simpl. unfold setVec3Value, shader_call.
    rewrite bind_assoc. rewrite (bind_Returned_nil get _ s s s eq_refl).
    rewrite Hnull. reflexivity.
Qed.

(** ** DefineObjectMaterials() *)

Lemma DefineObjectMaterials_appends :
  exists added : list (@OBJECT_MATERIAL float),
    mtag <$> added
      = [ "plastic"; "hardplastic"; "wood"; "silicone"; "rug"; "wall";
          "metal"; "window" ]
    /\ forall s,
         DefineObjectMaterials s
         = ([], Returned tt
                  (with_objectMaterials (m_objectMaterials s ++ added) s)).
Proof.
  eexists. split.
  2: { intros s. unfold DefineObjectMaterials, push_back. run.
       rewrite <- !app_assoc. simpl. reflexivity. }
  reflexivity.
Qed.

(** X15: [DefineObjectMaterials] returns on every object, appends eight
    materials and touches nothing else.  Each of the eight tags can be
    looked up afterwards and yields the material defined for it, unless a
    material registered earlier already carries that tag. *)
Theorem DefineObjectMaterials_lookup s :
  exists (added : list (@OBJECT_MATERIAL float)) s',
    DefineObjectMaterials s = ([], Returned tt s')
    /\ mtag <$> added
       = [ "plastic"; "hardplastic"; "wood"; "silicone"; "rug"; "wall";
           "metal"; "window" ]
    /\ m_objectMaterials s' = m_objectMaterials s ++ added
    /\ m_textureIDs s' = m_textureIDs s
    /\ m_loadedTextures s' = m_loadedTextures s
    /\ m_pShaderManager s' = m_pShaderManager s
    /\ forall m material,
         m ∈ added ->
         (forall m0, m0 ∈ m_objectMaterials s -> mtag m0 <> mtag m) ->
         FindMaterial (mtag m) material s'
           = ([], Returned (true, copy_material m material) s').
Proof.
  destruct DefineObjectMaterials_appends as (added & Htags & Hrun).
  exists added. eexists. split; [apply Hrun|]. split; [exact Htags|].
  do 4 (split; [reflexivity|]).
  intros m material Hin Hfresh.
  rewrite FindMaterial_spec. simpl m_objectMaterials.
  rewrite first_material_app, (first_material_None _ _ Hfresh).
  rewrite first_material_NoDup; [|rewrite Htags|exact Hin].
  - destruct (m_objectMaterials s ++ added) eqn:Happ; [|reflexivity].
    apply app_eq_nil in Happ as [_ ->]. inversion Hin.
  - repeat (apply NoDup_cons; split;
            [rewrite ?not_elem_of_cons;
             repeat split; try discriminate; apply not_elem_of_nil|]).
    apply NoDup_nil_2.
Qed.

(** X16: calling [DefineObjectMaterials] a second time appends the eight
    materials again but changes no lookup: for every tag and every caller
    object, [FindMaterial] returns after the second call what it returned
    after the first. *)
Theorem DefineObjectMaterials_twice s :
  exists s1 s2,
    DefineObjectMaterials s = ([], Returned tt s1)
    /\ DefineObjectMaterials s1 = ([], Returned tt s2)
    /\ length (m_objectMaterials s2) = (length (m_objectMaterials s) + 16)%nat
    /\ forall materialTag material r,
         FindMaterial materialTag material s1 = ([], Returned r s1) ->
         FindMaterial materialTag material s2 = ([], Returned r s2).
Proof.
  destruct DefineObjectMaterials_appends as (added & Htags & Hrun).
  assert (Hlen : length added = 8%nat).
  { rewrite <- (length_fmap mtag), Htags. reflexivity. }
  do 2 eexists. split; [apply Hrun|]. split; [apply Hrun|]. split.
  - simpl. rewrite !length_app, Hlen. lia.
  - intros materialTag material r Hfind.
    rewrite FindMaterial_spec in Hfind. apply returned_value in Hfind as <-.
    rewrite FindMaterial_spec. simpl m_objectMaterials.
    rewrite (first_material_app materialTag (m_objectMaterials s ++ added) added).
    destruct added as [|a0 added']; [discriminate|].
    destruct (m_objectMaterials s ++ a0 :: added') as [|b0 l] eqn:Happ.
    { apply app_eq_nil in Happ as [_ Habs]. discriminate. }
    simpl app.
    destruct (first_material materialTag (b0 :: l)) as [m|] eqn:Hfirst;
      [reflexivity|].
    rewrite <- Happ, first_material_app in Hfirst.
    destruct (first_material materialTag (m_objectMaterials s));
      [discriminate|].
    rewrite Hfirst. reflexivity.
Qed.

(** ** Uniforms *)

Lemma uniform_value_other (sm : ShaderManager) n v name :
  n <> name -> uniform_value ((n, v) :: sm) name = uniform_value sm name.
Proof.
  intros Hne. simpl. destruct (String.eqb_spec n name); [contradiction|].
  reflexivity.
Qed.

Lemma uniform_value_others (pushes sm : ShaderManager) name :
  Forall (fun p => fst p <> name) pushes ->
  uniform_value (pushes ++ sm) name = uniform_value sm name.
Proof.
  induction 1 as [|[n v] rest Hne _ IH]; simpl; [reflexivity|].
  simpl in Hne. destruct (String.eqb_spec n name); [contradiction|exact IH].
Qed.

Lemma SetupSceneLights_pushes :
  exists pushes : ShaderManager,
    length pushes = 25%nat
    /\ (forall name,
          name <> "bUseLighting" ->
          String.prefix "pointLights[0]." name = false ->
          String.prefix "pointLights[1]." name = false ->
          String.prefix "pointLights[2]." name = false ->
          forall sm, uniform_value (pushes ++ sm) name = uniform_value sm name)
    /\ (forall sm,
          uniform_value (pushes ++ sm) "bUseLighting" = Some (BoolValue true)
          /\ uniform_value (pushes ++ sm) "pointLights[0].bActive"
             = Some (BoolValue true)
          /\ uniform_value (pushes ++ sm) "pointLights[1].bActive"
             = Some (BoolValue true)
          /\ uniform_value (pushes ++ sm) "pointLights[2].bActive"
             = Some (BoolValue true))
    /\ forall s sm,
         m_pShaderManager s = Some sm ->
         SetupSceneLights s
         = ([], Returned tt (with_shader (Some (pushes ++ sm)) s)).
Proof.
  exists (match snd (SetupSceneLights (SceneManager_new (Some []))) with
          | Returned _ s' =>
            match m_pShaderManager s' with Some l => l | None => [] end
          | Fault _ => []
          end).
  split; [|split; [|split]].
  - reflexivity.
  - intros name H0 H1 H2 H3 sm. apply uniform_value_others.
    vm_compute. repeat constructor; intros Heq; subst name;
      try congruence; discriminate.
  - intros sm. repeat split.
  - intros s sm Hsm.
    unfold SetupSceneLights, setBoolValue, setVec3Value, setFloatValue.
    rewrite (bind_Returned_nil _ _ _ _ _ (shader_call_some s sm _ _ Hsm)).
    repeat (erewrite bind_Returned_nil
              by (apply shader_call_some; reflexivity)).
    erewrite shader_call_some by reflexivity.
    reflexivity.
Qed.

(** X17: [SetupSceneLights] has no null check: with a null shader manager
    it calls through the null pointer at its first statement.  Through a
    non-null one it returns after 25 setter calls that switch lighting on
    and mark the point lights 0, 1 and 2 active; it writes no uniform other
    than "bUseLighting" and the fields of those three lights, so a fourth
    light is never configured, and it leaves the table and the materials as
    they are. *)
Theorem SetupSceneLights_needs_shader s :
  (m_pShaderManager s = None ->
   SetupSceneLights s = ([], Fault NullDereference))
  /\ forall sm,
       m_pShaderManager s = Some sm ->
       exists s',
         SetupSceneLights s = ([], Returned tt s')
         /\ shader_uniform s' "bUseLighting" = Some (BoolValue true)
         /\ shader_uniform s' "pointLights[0].bActive" = Some (BoolValue true)
         /\ shader_uniform s' "pointLights[1].bActive" = Some (BoolValue true)
         /\ shader_uniform s' "pointLights[2].bActive" = Some (BoolValue true)
         /\ (forall name,
               name <> "bUseLighting" ->
               String.prefix "pointLights[0]." name = false ->
               String.prefix "pointLights[1]." name = false ->
               String.prefix "pointLights[2]." name = false ->
               shader_uniform s' name = shader_uniform s name)
         /\ m_textureIDs s' = m_textureIDs s
         /\ m_loadedTextures s' = m_loadedTextures s
         /\ m_objectMaterials s' = m_objectMaterials s.
Proof.
  split.
  - intros Hnull. unfold SetupSceneLights, setBoolValue, shader_call.
    rewrite bind_assoc. rewrite (bind_Returned_nil get _ s s s eq_refl).
    rewrite Hnull. reflexivity.
  - intros sm Hsm.
    destruct SetupSceneLights_pushes as (pushes & _ & Hframe & Hset & Hrun).
    eexists. split; [apply (Hrun s sm Hsm)|].
    destruct (Hset sm) as (Hl & H0 & H1 & H2).
    unfold shader_uniform. simpl. rewrite Hsm.
    repeat split; try assumption.
    intros name Hn Hp0 Hp1 Hp2. apply Hframe; assumption.
Qed.

(** X18: each of the five per-draw calls writes only its own uniforms and
    never touches the table or the materials.  Whenever the call returns,
    every uniform outside its own set holds the value it held before:
    "model" for [SetTransformations]; "bUseTexture" and "objectColor" for
    [SetShaderColor]; "bUseTexture" and "objectTexture" for
    [SetShaderTexture]; "UVscale" for [SetTextureUVScale]; the three
    "material." uniforms for [SetShaderMaterial]. *)
Ltac frame :=
  unfold shader_uniform;
  cbn [m_pShaderManager with_shader m_textureIDs m_loadedTextures
       m_objectMaterials];
  repeat match goal with
         | H : m_pShaderManager _ = _ |- _ => rewrite H
         | H : m_objectMaterials _ = _ |- _ => rewrite H
         end;
  unfold g_ModelName, g_ColorValueName, g_TextureValueName,
    g_UseTextureName;
  rewrite ?uniform_value_other by congruence;
  repeat split.

Theorem draw_calls_write_only_their_uniforms s name :
  table_ok s ->
  let kept (s' : SceneManager) :=
    shader_uniform s' name = shader_uniform s name
    /\ m_textureIDs s' = m_textureIDs s
    /\ m_loadedTextures s' = m_loadedTextures s
    /\ m_objectMaterials s' = m_objectMaterials s in
  (forall scaleXYZ x y z positionXYZ s',
      name <> "model" ->
      snd (SetTransformations scaleXYZ x y z positionXYZ s) = Returned tt s' ->
      kept s')
  /\ (forall r g b a s',
        name <> "bUseTexture" -> name <> "objectColor" ->
        snd (SetShaderColor r g b a s) = Returned tt s' -> kept s')
  /\ (forall textureTag s',
        name <> "bUseTexture" -> name <> "objectTexture" ->
        snd (SetShaderTexture textureTag s) = Returned tt s' -> kept s')
  /\ (forall u v s',
        name <> "UVscale" ->
        snd (SetTextureUVScale u v s) = Returned tt s' -> kept s')
  /\ (forall materialTag indeterminate s',
        name ∉ material_uniforms ->
        snd (SetShaderMaterial materialTag indeterminate s) = Returned tt s' ->
        kept s').
Proof.
  intros Hok kept. unfold kept. clear kept.
  destruct (m_pShaderManager s) as [sm|] eqn:Hsm.
  - split; [|split; [|split; [|split]]].
    + intros scaleXYZ x y z positionXYZ s' Hname Hret.
      unfold SetTransformations in Hret.
      rewrite (bind_Returned_nil _ _ _ _ _ (shader_not_null_some s sm Hsm)) in Hret.
      unfold setMat4Value in Hret. rewrite (shader_call_some s sm _ _ Hsm) in Hret.
      simpl in Hret. injection Hret as <-.
      frame.
    + intros r g b a s' Hn1 Hn2 Hret.
      rewrite (SetShaderColor_spec s sm r g b a Hsm) in Hret.
      simpl in Hret. injection Hret as <-.
      frame.
    + intros textureTag s' Hn1 Hn2 Hret.
      rewrite (SetShaderTexture_spec s sm textureTag Hsm Hok) in Hret.
      simpl in Hret. injection Hret as <-.
      frame.
    + intros u v s' Hname Hret.
      unfold SetTextureUVScale in Hret.
      rewrite (bind_Returned_nil _ _ _ _ _ (shader_not_null_some s sm Hsm)) in Hret.
      unfold setVec2Value in Hret. rewrite (shader_call_some s sm _ _ Hsm) in Hret.
      simpl in Hret. injection Hret as <-.
      frame.
    + intros materialTag indeterminate s' Hname Hret.
      unfold material_uniforms in Hname.
      rewrite !not_elem_of_cons in Hname. destruct Hname as (Hd & Hs & Hh & _).
      destruct (m_objectMaterials s) as [|m0 rest] eqn:Hmats.
      * destruct (SetShaderMaterial_empty_registry s materialTag indeterminate Hmats)
          as [_ Hrun].
        rewrite Hrun in Hret. simpl in Hret. injection Hret as <-.
        rewrite Hmats. repeat split.
      * destruct (first_material materialTag (m0 :: rest)) as [m|] eqn:Hfirst.
        -- destruct (SetShaderMaterial_found s sm materialTag indeterminate m Hsm)
             as [_ Hrun]; [rewrite Hmats; exact Hfirst|].
           rewrite Hrun in Hret. simpl in Hret. injection Hret as <-.
           frame.
        -- assert (Hrun : SetShaderMaterial materialTag indeterminate s
                          = ([], Returned tt
                                   (with_shader
                                      (Some (("material.shininess",
                                              FloatValue (shininess indeterminate))
                                             :: ("material.specularColor",
                                                 Vec3Value (specularColor indeterminate))
                                             :: ("material.diffuseColor",
                                                 Vec3Value (diffuseColor indeterminate))
                                             :: sm)) s))).
           { unfold SetShaderMaterial.
             rewrite (bind_Returned_nil get _ s s s eq_refl). rewrite Hmats.
             destruct (Z.ltb_spec 0 (Z.of_nat (length (m0 :: rest)))) as [_|Hzero];
               [|simpl in Hzero; lia].
             cbv beta iota.
             erewrite bind_Returned_nil
               by (rewrite FindMaterial_spec, Hmats, Hfirst; reflexivity).
             simpl. unfold setVec3Value, setFloatValue.
             rewrite (bind_Returned_nil _ _ _ _ _ (shader_call_some s sm _ _ Hsm)).
             erewrite bind_Returned_nil by (apply shader_call_some; reflexivity).
             erewrite shader_call_some by reflexivity. reflexivity. }
           rewrite Hrun in Hret. simpl in Hret. injection Hret as <-.
           frame.
  - assert (Hnull : forall (body : M SceneManager unit) s',
               snd ((ok <- shader_not_null;; if ok then body else ret tt) s)
               = Returned tt s' -> s' = s).
    { intros body s' Hret. unfold shader_not_null in Hret.
      unfold bind, get, ret in Hret. simpl in Hret. rewrite Hsm in Hret.
      simpl in Hret. injection Hret as <-. reflexivity. }
    split; [|split; [|split; [|split]]].
    + intros scaleXYZ x y z positionXYZ s' _ Hret.
      apply Hnull in Hret as ->. repeat split.
    + intros r g b a s' _ _ Hret.
      apply Hnull in Hret as ->. repeat split.
    + intros textureTag s' _ _ Hret.
      apply Hnull in Hret as ->. repeat split.
    + intros u v s' _ Hret.
      apply Hnull in Hret as ->. repeat split.
    + intros materialTag indeterminate s' _ Hret.
      destruct (m_objectMaterials s) as [|m0 rest] eqn:Hmats.
      * destruct (SetShaderMaterial_empty_registry s materialTag indeterminate Hmats)
          as [_ Hrun].
        rewrite Hrun in Hret. simpl in Hret. injection Hret as <-.
        rewrite Hmats. repeat split.
      * destruct (SetShaderMaterial_null_shader s materialTag indeterminate Hsm)
          as [_ Hfault].
        rewrite Hfault in Hret by (rewrite Hmats; discriminate).
        discriminate.
Qed.

End SetupFacts.

(** * The theorems at concrete inputs *)

Module Witness.

Import Sample.

(** The full table is what the sixteen loads of the scene leave behind. *)
Example full_table_reached :
  snd (LoadAll scene_loads (SceneManager_new (G := SymGlm) (Some [])))
    = Returned tt full_table.
Proof. vm_compute. reflexivity. Qed.

Lemma CreateGLTexture_full_table_overflows_witness :
  Z.of_nat (length (m_textureIDs full_table)) = MAX_TEXTURES
  /\ m_loadedTextures full_table = MAX_TEXTURES
  /\ exists calls format,
       CreateGLTexture "seventeenth.png" "seventeenth" (Some extra_image) 17
                       full_table
         = (calls, Fault (OutOfBounds 16))
       /\ In (glTexImage2D GL_TEXTURE_2D 0 format 4 4 0 format
                           GL_UNSIGNED_BYTE extra_image) calls.
Proof.
  split; [reflexivity|]. split; [reflexivity|].
  apply (CreateGLTexture_full_table_overflows full_table
           "seventeenth.png" "seventeenth" extra_image 17);
    reflexivity.
Defined.

Lemma FindMaterial_reports_absent_tag_found_witness :
  FindMaterial "missing" stale two_textures
    = ([], Returned (true, stale) two_textures)
  /\ SetShaderMaterial "missing" stale two_textures
     = ([], Returned tt
              (with_shader
                 (Some [ ("material.shininess", FloatValue (FLit 47));
                         ("material.specularColor",
                          Vec3Value (mk_vec3 (FLit 44) (FLit 45) (FLit 46)));
                         ("material.diffuseColor",
                          Vec3Value (mk_vec3 (FLit 41) (FLit 42) (FLit 43))) ])
                 two_textures)).
Proof.
  apply (FindMaterial_reports_absent_tag_found two_textures [] "missing" stale).
  - reflexivity.
  - discriminate.
  - apply Forall_forall. repeat constructor. discriminate.
Defined.

Lemma SetTransformations_model_matrix_witness :
  let scaleXYZ := mk_vec3 (FLit 2) (FLit 1) (FLit 1) in
  let positionXYZ := mk_vec3 (FLit 5) (FLit 0) (FLit 0) in
  SetTransformations scaleXYZ (FLit 0) (FLit 90) (FLit 0) positionXYZ
                     two_textures
    = ([], Returned tt
             (with_shader
                (Some [ ("model",
                         Mat4Value
                           (ComposeModelMatrix scaleXYZ
                              (mk_vec3 (FLit 0) (FLit 90) (FLit 0))
                              positionXYZ)) ])
                two_textures)).
Proof.
  intros scaleXYZ positionXYZ.
  apply (SetTransformations_model_matrix two_textures [] scaleXYZ
           (FLit 0) (FLit 90) (FLit 0) positionXYZ).
  reflexivity.
Defined.

Lemma use_texture_flag_last_write_wins_witness :
  exists unit_index s1 s2,
    FindTextureSlot "wood2" two_textures
      = ([], Returned unit_index two_textures)
    /\ (SetShaderColor (FLit 1) (FLit 1) (FLit 1) (FLit 1);;
        SetShaderTexture "wood2") two_textures = ([], Returned tt s1)
    /\ shader_uniform s1 "bUseTexture" = Some (IntValue 1)
    /\ shader_uniform s1 "objectTexture" = Some (Sampler2DValue unit_index)
    /\ (SetShaderTexture "wood2";;
        SetShaderColor (FLit 1) (FLit 1) (FLit 1) (FLit 1)) two_textures
       = ([], Returned tt s2)
    /\ shader_uniform s2 "bUseTexture" = Some (IntValue 0).
Proof.
  apply (use_texture_flag_last_write_wins two_textures []).
  - reflexivity.
  - unfold table_ok. simpl. lia.
Defined.

Lemma lookups_follow_registration_order_witness :
  exists calls s,
    LoadAll two_loads (SceneManager_new (G := SymGlm) (Some []))
      = (calls, Returned tt s)
    /\ m_loadedTextures s = 2
    /\ FindTextureSlot "wood2" s = ([], Returned 1 s)
    /\ FindTextureID "wood2" s = ([], Returned 2 s)
    /\ FindTextureSlot "missing" s = ([], Returned (-1) s)
    /\ FindTextureID "missing" s = ([], Returned (-1) s).
Proof.
  destruct (lookups_follow_registration_order (G := SymGlm) (Some []) two_loads)
    as (calls & s & Hrun & Hcount & Hhit & Hmiss).
  - simpl. lia.
  - apply NoDup_cons; split; [|apply NoDup_singleton].
    rewrite list_elem_of_singleton. discriminate.
  - exists calls, s.
    destruct (Hhit 1%nat _ eq_refl) as (_ & Hslot & Hid).
    destruct (Hmiss "missing") as (Hslot' & Hid').
    { unfold two_loads. simpl. rewrite !not_elem_of_cons.
      repeat split; try discriminate.
      apply not_elem_of_nil. }
    repeat split; assumption.
Defined.

Lemma DestroyGLTextures_idempotent_witness :
  exists calls s1,
    DestroyGLTextures two_textures = (calls, Returned tt s1)
    /\ m_loadedTextures s1 = 0
    /\ DestroyGLTextures s1 = ([], Returned tt s1)
    /\ (DestroyGLTextures;; DestroyGLTextures) two_textures
       = (calls, Returned tt s1)
    /\ forall tag',
         FindTextureSlot tag' s1 = ([], Returned (-1) s1)
         /\ FindTextureID tag' s1 = ([], Returned (-1) s1).
Proof.
  apply (DestroyGLTextures_idempotent two_textures).
  unfold table_ok. simpl. lia.
Defined.

Lemma SetShaderTexture_unregistered_tag_witness :
  exists s',
    SetShaderTexture "missing" two_textures = ([], Returned tt s')
    /\ s' = with_shader
              (Some [ ("objectTexture", Sampler2DValue (-1));
                      ("bUseTexture", IntValue 1) ]) two_textures
    /\ shader_uniform s' "bUseTexture" = Some (IntValue 1)
    /\ shader_uniform s' "objectTexture" = Some (Sampler2DValue (-1)).
Proof.
  apply (SetShaderTexture_unregistered_tag two_textures [] "missing").
  - reflexivity.
  - unfold table_ok. simpl. lia.
  - apply Forall_forall. repeat constructor; discriminate.
Defined.

Lemma null_shader_manager_noop_witness :
  let s := SceneManager_new (G := SymGlm) None in
  m_pShaderManager s = None
  /\ (forall scaleXYZ x y z positionXYZ,
         SetTransformations scaleXYZ x y z positionXYZ s = ([], Returned tt s))
  /\ (forall r g b a, SetShaderColor r g b a s = ([], Returned tt s))
  /\ (forall textureTag, SetShaderTexture textureTag s = ([], Returned tt s))
  /\ (forall u v, SetTextureUVScale u v s = ([], Returned tt s)).
Proof.
  intros s. split; [reflexivity|].
  apply (null_shader_manager_noop s). reflexivity.
Defined.

Lemma two_textures_ok : table_ok two_textures.
Proof. unfold table_ok. simpl. lia. Defined.

Lemma two_textures_inv : table_inv two_textures.
Proof. unfold table_inv, MAX_TEXTURES. simpl. lia. Defined.

Lemma two_textures_room :
  0 <= m_loadedTextures two_textures
     < Z.of_nat (length (m_textureIDs two_textures)).
Proof. simpl. lia. Defined.

Lemma load_then_lookup_witness :
  exists calls s',
    CreateGLTexture "couch.jpg" "couch" (Some image) 3 two_textures
      = (calls, Returned true s')
    /\ FindTextureSlot "couch" s' = ([], Returned 2 s')
    /\ FindTextureID "couch" s' = ([], Returned 3 s').
Proof.
  destruct (load_then_lookup two_textures "couch.jpg" "couch" image 3)
    as (calls & s' & Hrun & _ & Hslot & Hid & _).
  - exact two_textures_room.
  - apply Forall_forall. repeat constructor; discriminate.
  - exists calls, s'. repeat split; assumption.
Defined.

Lemma load_keeps_other_lookups_witness :
  exists calls s',
    CreateGLTexture "couch.jpg" "couch" (Some image) 3 two_textures
      = (calls, Returned true s')
    /\ FindTextureSlot "wood2" s' = ([], Returned 1 s')
    /\ FindTextureID "missing" s' = ([], Returned (-1) s').
Proof.
  destruct (load_keeps_other_lookups two_textures "couch.jpg" "couch" image 3
              "wood2") as (calls & s' & Hrun & Hslot & _).
  - exact two_textures_room.
  - discriminate.
  - destruct (load_keeps_other_lookups two_textures "couch.jpg" "couch" image 3
                "missing") as (calls' & s'' & Hrun' & _ & Hid).
    + exact two_textures_room.
    + discriminate.
    + rewrite Hrun in Hrun'. injection Hrun' as _ <-.
      exists calls, s'. split; [exact Hrun|]. split.
      * apply Hslot. reflexivity.
      * apply Hid. reflexivity.
Defined.

Lemma load_duplicate_tag_is_shadowed_witness :
  exists calls s',
    CreateGLTexture "other.jpg" "wood1" (Some image) 9 two_textures
      = (calls, Returned true s')
    /\ m_textureIDs s' !! 2%nat = Some {| ID := 9; tag := "wood1" |}
    /\ FindTextureSlot "wood1" s' = ([], Returned 0 s')
    /\ FindTextureID "wood1" s' = ([], Returned 1 s').
Proof.
  destruct (load_duplicate_tag_is_shadowed two_textures "other.jpg" "wood1"
              image 9 0)
    as (calls & s' & Hrun & Hnew & _ & Hslot & Hid).
  - exact two_textures_room.
  - reflexivity.
  - discriminate.
  - exists calls, s'. repeat split; try assumption.
    apply Hid. reflexivity.
Defined.

Lemma lookups_agree_witness :
  exists unit_index,
    FindTextureSlot "wood2" two_textures = ([], Returned unit_index two_textures)
    /\ ((unit_index = -1
         /\ FindTextureID "wood2" two_textures = ([], Returned (-1) two_textures)
         /\ forall t, t ∈ registered two_textures -> tag t <> "wood2")
        \/ (0 <= unit_index < m_loadedTextures two_textures
            /\ exists t,
                 m_textureIDs two_textures !! Z.to_nat unit_index = Some t
                 /\ tag t = "wood2"
                 /\ FindTextureID "wood2" two_textures
                    = ([], Returned (to_int (ID t)) two_textures)
                 /\ forall (j : nat) t',
                      (j < Z.to_nat unit_index)%nat ->
                      m_textureIDs two_textures !! j = Some t' ->
                      tag t' <> "wood2")).
Proof. apply (lookups_agree two_textures "wood2"), two_textures_ok. Defined.

Lemma BindGLTextures_units_witness :
  exists calls,
    BindGLTextures two_textures = (calls, Returned tt two_textures)
    /\ length calls = 4%nat
    /\ calls !! 2%nat = Some (glActiveTexture 1)
    /\ calls !! 3%nat = Some (glBindTexture GL_TEXTURE_2D 2).
Proof.
  destruct (BindGLTextures_units two_textures two_textures_ok)
    as (calls & Hrun & Hlen & Hunits).
  destruct (Hunits 1%nat {| ID := 2; tag := "wood2" |} eq_refl) as [Hact Hbind].
  exists calls. repeat split; assumption.
Defined.

Lemma DestroyGLTextures_deletes_live_textures_witness :
  exists calls s',
    DestroyGLTextures two_textures = (calls, Returned tt s')
    /\ glDeleteTextures 1 2 ∈ calls
    /\ m_loadedTextures s' = 0
    /\ m_textureIDs s' !! 1%nat = Some {| ID := 0; tag := "wood2" |}.
Proof.
  destruct (DestroyGLTextures_deletes_live_textures two_textures
              two_textures_ok)
    as (calls & s' & Hrun & Hcalls & Hcount & _ & Hslots & _).
  exists calls, s'. split; [exact Hrun|]. split; [|split; [exact Hcount|]].
  - apply Hcalls. exists {| ID := 2; tag := "wood2" |}.
    split; [right; left|split; [discriminate|reflexivity]].
  - apply (Hslots 1%nat {| ID := 2; tag := "wood2" |}). reflexivity.
Defined.


Lemma units_count_decoded_images_witness :
  exists calls s,
    LoadAttempts three_attempts (SceneManager_new (G := SymGlm) (Some []))
      = (calls, Returned tt s)
    /\ m_loadedTextures s = 2
    /\ FindTextureSlot "couch" s = ([], Returned 1 s)
    /\ FindTextureSlot "wood2" s = ([], Returned (-1) s).
Proof.
  destruct (units_count_decoded_images (G := SymGlm) (Some [])
              (take 2 three_attempts) [] couch_attempt image)
    as (calls & s & Hrun & Hcount & Hslot & _ & Hmiss).
  - reflexivity.
  - simpl. lia.
  - apply Forall_forall. repeat constructor; discriminate.
  - exists calls, s. split; [exact Hrun|]. split; [exact Hcount|].
    split; [exact Hslot|].
    apply (Hmiss "wood2"). apply Forall_forall.
    repeat constructor; discriminate.
Defined.

Lemma release_then_reload_witness :
  exists calls s' calls0 s0,
    (DestroyGLTextures;; LoadAttempts three_attempts) two_textures
      = (calls, Returned tt s')
    /\ LoadAttempts three_attempts (SceneManager_new (G := SymGlm) None)
       = (calls0, Returned tt s0)
    /\ registered s' = registered s0.
Proof.
  destruct (release_then_reload two_textures None three_attempts)
    as (calls & s' & calls0 & s0 & Hrun & Hrun0 & Hreg & _).
  - exact two_textures_inv.
  - simpl. lia.
  - exists calls, s', calls0, s0. repeat split; assumption.
Defined.

Lemma SceneManager_delete_releases_witness :
  exists calls s',
    SceneManager_delete two_textures = (calls, Returned tt s')
    /\ glDeleteTextures 1 1 ∈ calls
    /\ m_pShaderManager s' = None
    /\ m_loadedTextures s' = 0.
Proof.
  destruct (SceneManager_delete_releases two_textures two_textures_ok)
    as (calls & s' & Hrun & Hcalls & Hnull & Hcount).
  exists calls, s'. repeat split; try assumption.
  apply Hcalls. exists {| ID := 1; tag := "wood1" |}.
  split; [left|split; [discriminate|reflexivity]].
Defined.

Lemma material_first_match_wins_witness :
  FindMaterial "plastic" stale two_plastics
    = ([], Returned
             (true,
              {| diffuseColor := mk_vec3 (FLit 6) (FLit 6) (FLit 6);
                 specularColor := mk_vec3 (FLit 8) (FLit 8) (FLit 8);
                 shininess := FLit 300;
                 mtag := "" |}) two_plastics)
  /\ SetShaderMaterial "plastic" stale two_plastics
     = ([], Returned tt
              (with_shader
                 (Some [ ("material.shininess", FloatValue (FLit 300));
                         ("material.specularColor",
                          Vec3Value (mk_vec3 (FLit 8) (FLit 8) (FLit 8)));
                         ("material.diffuseColor",
                          Vec3Value (mk_vec3 (FLit 6) (FLit 6) (FLit 6))) ])
                 two_plastics)).
Proof.
  apply (material_first_match_wins two_plastics [] [] [plastic_again] plastic
           "plastic" stale).
  - reflexivity.
  - reflexivity.
  - reflexivity.
  - intros m' Hin. inversion Hin.
Defined.

Lemma SetShaderMaterial_null_shader_witness :
  SetShaderMaterial "plastic" stale two_textures_no_shader
    = ([], Fault NullDereference)
  /\ SetShaderMaterial "plastic" stale (SceneManager_new (G := SymGlm) None)
     = ([], Returned tt (SceneManager_new None)).
Proof.
  split.
  - apply (SetShaderMaterial_null_shader two_textures_no_shader "plastic" stale);
      [reflexivity|discriminate].
  - apply (SetShaderMaterial_null_shader (SceneManager_new (G := SymGlm) None)
             "plastic" stale); reflexivity.
Defined.

Lemma DefineObjectMaterials_lookup_witness :
  exists s',
    DefineObjectMaterials (SceneManager_new (G := SymGlm) (Some []))
      = ([], Returned tt s')
    /\ exists m,
         mtag m = "metal"
         /\ FindMaterial "metal" stale s'
            = ([], Returned (true, copy_material m stale) s').
Proof.
  destruct (DefineObjectMaterials_lookup (L := SymLiteral)
              (SceneManager_new (G := SymGlm) (Some [])))
    as (added & s' & Hrun & Htags & _ & _ & _ & _ & Hfind).
  exists s'. split; [exact Hrun|].
  destruct (added !! 6%nat) as [m|] eqn:Hm.
  - exists m.
    assert (Htag : mtag m = "metal").
    { assert (Hl : (mtag <$> added) !! 6%nat = Some (mtag m))
        by (rewrite list_lookup_fmap, Hm; reflexivity).
      rewrite Htags in Hl. injection Hl as <-. reflexivity. }
    split; [exact Htag|]. rewrite <- Htag.
    apply Hfind; [eapply list_elem_of_lookup_2, Hm|].
    intros m0 Hin. inversion Hin.
  - exfalso. apply lookup_ge_None in Hm.
    rewrite <- (length_fmap mtag), Htags in Hm. simpl in Hm. lia.
Defined.

Lemma SetupSceneLights_needs_shader_witness :
  SetupSceneLights (L := SymLiteral) two_textures_no_shader
    = ([], Fault NullDereference)
  /\ exists s',
       SetupSceneLights (L := SymLiteral) two_textures = ([], Returned tt s')
       /\ shader_uniform s' "bUseLighting" = Some (BoolValue true)
       /\ shader_uniform s' "pointLights[3].bActive" = None.
Proof.
  split.
  - apply (SetupSceneLights_needs_shader (L := SymLiteral)
             two_textures_no_shader). reflexivity.
  - destruct (SetupSceneLights_needs_shader (L := SymLiteral) two_textures)
      as [_ Hrun].
    destruct (Hrun [] eq_refl)
      as (s' & Hs' & Hlit & _ & _ & _ & Hframe & _).
    exists s'. split; [exact Hs'|]. split; [exact Hlit|].
    rewrite Hframe; [reflexivity|discriminate|reflexivity..].
Defined.

Lemma draw_calls_write_only_their_uniforms_witness :
  exists s',
    snd (SetShaderColor (FLit 1) (FLit 1) (FLit 1) (FLit 1) two_textures)
      = Returned tt s'
    /\ shader_uniform s' "objectTexture"
       = shader_uniform two_textures "objectTexture"
    /\ m_textureIDs s' = m_textureIDs two_textures.
Proof.
  eexists. split; [reflexivity|].
  destruct (draw_calls_write_only_their_uniforms two_textures "objectTexture"
              two_textures_ok) as (_ & Hcolor & _).
  destruct (Hcolor (FLit 1) (FLit 1) (FLit 1) (FLit 1) _
              ltac:(discriminate) ltac:(discriminate) eq_refl)
    as (Hu & Ht & _).
  split; assumption.
Defined.

End Witness.
